(** * Blog generation Lambda (app.py): a shallow embedding and its properties

  The program is orchestration glue around four collaborators: the [json]
  module, the [boto3] clients (Bedrock inference and S3), the CrewAI
  framework and the wall clock.  The embedding keeps the control flow of
  [app.py] as it is written and takes the collaborators' answers from a
  record [World]; every call that leaves the process is appended to a log
  of [event]s, so that "no write was attempted" or "the fallback ran"
  are statements about that log. *)

From Stdlib Require Import ZArith String Ascii List Bool Lia Floats DecimalString.
Import ListNotations.
Open Scope string_scope.
Set Warnings "-register-all,-inexact-float".

(** ** Python values, exceptions and the few built-ins the script uses *)

Module Py.

(** The values [json.loads] can produce.  A [str] is a sequence of code
    points below 256; a [dict] keeps its insertion order and has string
    keys, which is all JSON allows. *)
Inductive pyval : Type :=
| VNone
| VBool (b : bool)
| VInt (n : Z)
| VFloat (x : float)
| VStr (s : string)
| VList (l : list pyval)
| VDict (d : list (string * pyval)).

(** Instances of [Exception], the class the script's handlers name.
    [OtherError] stands for any class not listed (botocore's [ClientError],
    a framework error, ...). *)
Inductive exn : Type :=
| KeyError (key : string)
| TypeError
| AttributeError
| JSONDecodeError
| OtherError (cls : string).

Inductive result (A : Type) : Type :=
| Ok (a : A)
| Raise (e : exn).
Arguments Ok {A} a.
Arguments Raise {A} e.

(** [bool(v)] *)
Definition truthy (v : pyval) : bool :=
  match v with
  | VNone => false
  | VBool b => b
  | VInt n => negb (n =? 0)%Z
  | VFloat x => negb (PrimFloat.eqb x 0%float)
  | VStr s => match s with EmptyString => false | _ => true end
  | VList l => match l with [] => false | _ => true end
  | VDict d => match d with [] => false | _ => true end
  end.

(** [a or b] *)
Definition py_or (a b : pyval) : pyval := if truthy a then a else b.

Fixpoint dict_lookup (key : string) (d : list (string * pyval)) : option pyval :=
  match d with
  | [] => None
  | (k, v) :: d' => if String.eqb k key then Some v else dict_lookup key d'
  end.

(** [v[key]] with a string key: only a dict can answer. *)
Definition py_getitem (v : pyval) (key : string) : result pyval :=
  match v with
  | VDict d =>
      match dict_lookup key d with
      | Some x => Ok x
      | None => Raise (KeyError key)
      end
  | _ => Raise TypeError
  end.

(** [v.get(key, default)]: a method of dict; other values have no [get]. *)
Definition py_get (v : pyval) (key : string) (default : pyval) : result pyval :=
  match v with
  | VDict d =>
      match dict_lookup key d with
      | Some x => Ok x
      | None => Ok default
      end
  | _ => Raise AttributeError
  end.

(** [str.isspace] on one code point below 256: TAB..CR, FS..US, space,
    NEL and NBSP. *)
Definition is_space (c : ascii) : bool :=
  let n := N_of_ascii c in
  ((9 <=? n) && (n <=? 13) || (28 <=? n) && (n <=? 32)
   || (n =? 133) || (n =? 160))%N.

Fixpoint lstrip (s : string) : string :=
  match s with
  | EmptyString => EmptyString
  | String c s' => if is_space c then lstrip s' else s
  end.

Fixpoint rstrip (s : string) : string :=
  match s with
  | EmptyString => EmptyString
  | String c s' =>
      match rstrip s' with
      | EmptyString => if is_space c then EmptyString else String c EmptyString
      | r => String c r
      end
  end.

(** [s.strip()] *)
Definition strip (s : string) : string := rstrip (lstrip s).

Fixpoint chars (s : string) : list string :=
  match s with
  | EmptyString => []
  | String c s' => String c EmptyString :: chars s'
  end.

Fixpoint all_str (l : list pyval) : result (list string) :=
  match l with
  | [] => Ok []
  | VStr s :: l' =>
      match all_str l' with
      | Ok ss => Ok (s :: ss)
      | Raise e => Raise e
      end
  | _ :: _ => Raise TypeError
  end.

(** [sep.join(v)]: [v] is iterated (a list by its items, a str by its
    characters, a dict by its keys); a non-iterable or a non-str item is a
    [TypeError]. *)
Definition py_join (sep : string) (v : pyval) : result string :=
  match v with
  | VList l =>
      match all_str l with
      | Ok ss => Ok (String.concat sep ss)
      | Raise e => Raise e
      end
  | VStr s => Ok (String.concat sep (chars s))
  | VDict d => Ok (String.concat sep (map fst d))
  | _ => Raise TypeError
  end.

Definition z_str (n : Z) : string := NilZero.string_of_int (Z.to_int n).

(** [str(v)], as an f-string field formats it.  [repr] is the interpreter's
    rendering of floats and containers. *)
Definition py_str (repr : pyval -> string) (v : pyval) : string :=
  match v with
  | VStr s => s
  | VNone => "None"
  | VBool true => "True"
  | VBool false => "False"
  | VInt n => z_str n
  | _ => repr v
  end.

(** [getattr(o, name, default)] given the outcome of the plain attribute
    lookup: only [AttributeError] is turned into the default. *)
Definition getattr_default {A} (lookup : result A) (default : A) : result A :=
  match lookup with
  | Raise AttributeError => Ok default
  | r => r
  end.

End Py.
Import Py.

(** ** [json.dumps] with its default settings *)

Module Json.

Definition dquote : string := String "034"%char EmptyString.

Definition hex_digit (n : N) : ascii :=
  match String.get (N.to_nat n) "0123456789abcdef" with
  | Some c => c
  | None => "0"%char
  end.

(** [py_encode_basestring_ascii] on one code point *)
Definition escape_char (c : ascii) : string :=
  let n := N_of_ascii c in
  if (n =? 34)%N then "\" ++ dquote
  else if (n =? 92)%N then "\\"
  else if (n =? 8)%N then "\b"
  else if (n =? 12)%N then "\f"
  else if (n =? 10)%N then "\n"
  else if (n =? 13)%N then "\r"
  else if (n =? 9)%N then "\t"
  else if ((32 <=? n) && (n <=? 126))%N then String c EmptyString
  else "\u00" ++ String (hex_digit (n / 16)) (String (hex_digit (n mod 16)) EmptyString).

Fixpoint escape (s : string) : string :=
  match s with
  | EmptyString => EmptyString
  | String c s' => escape_char c ++ escape s'
  end.

Definition dumps_str (s : string) : string := dquote ++ escape s ++ dquote.

Section Dumps.

(** [float.__repr__], with JSON's spelling of the non-finite values *)
Variable float_repr : float -> string.

Fixpoint dumps (v : pyval) : string :=
  match v with
  | VNone => "null"
  | VBool true => "true"
  | VBool false => "false"
  | VInt n => z_str n
  | VFloat x => float_repr x
  | VStr s => dumps_str s
  | VList l => "[" ++ String.concat ", " (map dumps l) ++ "]"
  | VDict d =>
      "{" ++ String.concat ", "
               (map (fun kv => let '(k, x) := kv in dumps_str k ++ ": " ++ dumps x) d)
          ++ "}"
  end.

End Dumps.

End Json.

(** ** The CrewAI objects the script configures

    The script only builds these objects and hands the crew to the
    framework; the fields are the keyword arguments it passes. *)

Module CrewAI.

Record LLM : Type := mkLLM {
  llm_model : string;
  llm_temperature : float;
  llm_max_tokens : Z;
  llm_aws_region_name : string;
  llm_timeout : Z
}.

Record Agent : Type := mkAgent {
  role : string;
  goal : string;
  backstory : string;
  allow_delegation : bool;
  llm : LLM
}.

(** [context] is [None] when the keyword is not passed. *)
Inductive Task : Type :=
| mkTask (description expected_output : string) (agent : Agent)
         (context : option (list Task)).

Definition task_description (t : Task) : string :=
  let '(mkTask d _ _ _) := t in d.
Definition task_agent (t : Task) : Agent :=
  let '(mkTask _ _ a _) := t in a.
Definition task_context (t : Task) : option (list Task) :=
  let '(mkTask _ _ _ c) := t in c.

(** The tasks whose outputs a task is given. *)
Definition context_tasks (t : Task) : list Task :=
  match task_context t with
  | Some l => l
  | None => []
  end.

Inductive Process : Type := sequential | hierarchical.

Record Crew : Type := mkCrew {
  agents : list Agent;
  tasks : list Task;
  process : Process
}.

(** What an attribute lookup can hand back: a plain value, or an object
    that answers further lookups. *)
Inductive pyobj : Type :=
| OVal (v : pyval)
| OObj (attr : string -> result pyobj).

(** [o.name]; none of the plain values has the attributes asked for here. *)
Definition py_getattr (o : pyobj) (name : string) : result pyobj :=
  match o with
  | OObj attr => attr name
  | OVal _ => Raise AttributeError
  end.

Definition is_None (o : pyobj) : bool :=
  match o with
  | OVal VNone => true
  | _ => false
  end.

(** The state [crew.kickoff()] leaves behind when it returns: [str] of the
    value it returned, and what the task objects answer to an attribute
    lookup afterwards (the framework stores each task's output on the task
    object itself). *)
Record KickoffOutcome : Type := mkOutcome {
  ko_result_str : string;
  ko_task_attr : Task -> string -> result pyobj
}.

End CrewAI.
Import CrewAI.

(** ** The world outside the process *)

Record BotoConfig : Type := mkConfig {
  read_timeout : Z;
  max_attempts : Z
}.

(** The dict [invoke_model] returns: [resp_body] is [None] when it has no
    ['body'] entry, and otherwise what [.read()] on the stream gives. *)
Record Response : Type := mkResponse {
  resp_body : option (result string)
}.

Record datetime : Type := mkDatetime {
  year : Z; month : Z; day : Z;
  hour : Z; minute : Z; second : Z
}.

(** The five module globals bound by the import at the top of the file. *)
Record Imports : Type := mkImports {
  imp_Agent : option unit;
  imp_Task : option unit;
  imp_Crew : option unit;
  imp_Process : option unit;
  imp_LLM : option unit
}.

(** [try: from crewai import ... except Exception: Agent = ... = None] *)
Definition import_crewai (importable : bool) : Imports :=
  if importable
  then mkImports (Some tt) (Some tt) (Some tt) (Some tt) (Some tt)
  else mkImports None None None None None.

(** Calls that leave the process, in the order they are made. *)
Inductive event : Type :=
| EvPrint (msg : string)
| EvClient (service : string) (region_name : option string) (config : option BotoConfig)
| EvInvokeModel (body modelId : string)
| EvKickoff (c : Crew)
| EvPutObject (Bucket Key : string) (Body : pyval).

Record World : Type := mkWorld {
  (* the interpreter and the json module *)
  json_loads : string -> result pyval;
  py_repr : pyval -> string;
  float_repr : float -> string;
  exn_str : exn -> string;
  (* module state after import *)
  crewai : Imports;
  (* services *)
  boto3_client : string -> result unit;
  bedrock_invoke_model : string -> string -> result Response;
  crew_kickoff : Crew -> result KickoffOutcome;
  s3_put_object : string -> string -> pyval -> result unit;
  datetime_now : datetime
}.

(** ** Computations: a log of events and a value or an exception *)

Definition M (A : Type) : Type := (list event * result A)%type.

Definition ret {A} (a : A) : M A := ([], Ok a).
Definition raise {A} (e : exn) : M A := ([], Raise e).
Definition lift {A} (r : result A) : M A := ([], r).
Definition call {A} (ev : event) (r : result A) : M A := ([ev], r).

Definition bind {A B} (m : M A) (f : A -> M B) : M B :=
  match m with
  | (l, Ok a) => let '(l', r) := f a in ((l ++ l')%list, r)
  | (l, Raise e) => (l, Raise e)
  end.

(** [try: m except Exception as e: h e] *)
Definition try_except {A} (m : M A) (h : exn -> M A) : M A :=
  match m with
  | (l, Raise e) => let '(l', r) := h e in ((l ++ l')%list, r)
  | (l, Ok a) => (l, Ok a)
  end.

Definition print (msg : string) : M unit := call (EvPrint msg) (Ok tt).

Definition trace {A} (m : M A) : list event := fst m.
Definition outcome {A} (m : M A) : result A := snd m.

Declare Scope py_scope.
Delimit Scope py_scope with py.
Notation "x <- m ;; k" := (bind m (fun x => k))
  (at level 61, m at next level, right associativity) : py_scope.
Notation "m ;; k" := (bind m (fun _ => k))
  (at level 61, right associativity) : py_scope.
Open Scope py_scope.

(** ** [datetime.strftime] *)

Definition digit (n : Z) : string :=
  String (ascii_of_N (48 + Z.to_N (n mod 10))) EmptyString.

(** a two-digit, zero-padded field *)
Definition pad2 (n : Z) : string := digit (n / 10) ++ digit n.

Definition directive (d : ascii) (t : datetime) : string :=
  if Ascii.eqb d "Y" then z_str (year t)
  else if Ascii.eqb d "m" then pad2 (month t)
  else if Ascii.eqb d "d" then pad2 (day t)
  else if Ascii.eqb d "H" then pad2 (hour t)
  else if Ascii.eqb d "M" then pad2 (minute t)
  else if Ascii.eqb d "S" then pad2 (second t)
  else if Ascii.eqb d "%" then "%"
  else String "%" (String d EmptyString).

Fixpoint strftime (fmt : string) (t : datetime) : string :=
  match fmt with
  | EmptyString => EmptyString
  | String c rest =>
      if Ascii.eqb c "%" then
        match rest with
        | String d rest' => directive d t ++ strftime rest' t
        | EmptyString => "%"
        end
      else String c (strftime rest t)
  end.

(** ** The script *)

Definition nl : string := String "010"%char EmptyString.

Record Envelope : Type := mkEnvelope {
  statusCode : Z;
  body : string
}.

Section Script.

Variable w : World.

Definition fmt (v : pyval) : string := py_str (py_repr w) v.

(** [json.loads(v)]: the module refuses what is not text. *)
Definition py_json_loads (v : pyval) : result pyval :=
  match v with
  | VStr s => json_loads w s
  | _ => Raise TypeError
  end.

Definition json_dumps (v : pyval) : string := Json.dumps (float_repr w) v.

Definition bedrock_prompt (blogtopic : pyval) : string :=
  "<s>[INST]Human: Write a 200 words blog on the topic " ++ fmt blogtopic ++ nl
  ++ "    Assistant:[/INST]" ++ nl
  ++ "    ".

Definition bedrock_body (blogtopic : pyval) : pyval :=
  VDict [("prompt", VStr (bedrock_prompt blogtopic));
         ("max_gen_len", VInt 512);
         ("temperature", VFloat 0.5);
         ("top_p", VFloat 0.9)].

(** Lines 29-40: the body of the [try] statement, the inference call and
    the decoding of its response. *)
Definition invoke_and_decode (blogtopic : pyval) : M pyval :=
  let body := bedrock_body blogtopic in
  bedrock <- call (EvClient "bedrock-runtime" (Some "us-east-1")
                            (Some (mkConfig 300 3)))
                  (boto3_client w "bedrock-runtime") ;;
  response <- call (EvInvokeModel (json_dumps body) "meta.llama2-13b-chat-v1")
                   (bedrock_invoke_model w (json_dumps body) "meta.llama2-13b-chat-v1") ;;
  response_content <- match resp_body response with
                      | Some stream => lift stream
                      | None => raise AttributeError
                      end ;;
  response_data <- lift (json_loads w response_content) ;;
  print (fmt response_data) ;;
  blog_details <- lift (py_getitem response_data "generation") ;;
  ret blog_details.

Definition blog_generate_using_bedrock (blogtopic : pyval) : M pyval :=
  try_except
    (invoke_and_decode blogtopic)
    (fun e =>
       print ("Error generating the blog:" ++ exn_str w e) ;;
       ret (VStr "")).

(** *** The staged path: the objects of lines 63-172 *)

Definition bedrock_llm : LLM :=
  mkLLM "bedrock/meta.llama2-13b-chat-v1" 0.5 2048 "us-east-1" 300.

Definition researcher : Agent :=
  mkAgent "Market Research Analyst"
    "Research the topic, identify up-to-date facts, trends, statistics, pain points, and SEO keywords."
    "You are a meticulous B2B/B2C market researcher who summarizes credible insights succinctly."
    false bedrock_llm.

Definition strategist : Agent :=
  mkAgent "Content Strategist"
    "Design a high-converting outline aligned with the audience, brand, and SEO goals."
    "You structure content to maximize clarity, search intent match, and engagement."
    false bedrock_llm.

Definition writer : Agent :=
  mkAgent "Senior Copywriter"
    "Write persuasive, clear copy that is accurate and on-brand."
    "You write concise, engaging articles with smooth flow and strong transitions."
    false bedrock_llm.

Definition editor : Agent :=
  mkAgent "Managing Editor"
    "Edit for accuracy, coherence, brand tone, grammar, and SEO. Ensure factual consistency and polish."
    "You are uncompromising on quality and clarity; you deliver publication-ready content."
    false bedrock_llm.

(** The values the task descriptions interpolate. *)
Record Brief : Type := mkBrief {
  blogtopic : pyval;
  audience_str : pyval;
  tone_str : pyval;
  brand_str : pyval;
  keywords_str : string;
  target_word_count : pyval
}.

Definition research_task (b : Brief) : Task :=
  mkTask
    ("Conduct research for a blog about '" ++ fmt (blogtopic b) ++ "'." ++ nl
     ++ "Audience: " ++ fmt (audience_str b) ++ ". Brand: " ++ fmt (brand_str b)
     ++ ". Desired tone: " ++ fmt (tone_str b) ++ "." ++ nl
     ++ "If SEO keywords provided, prioritize them: "
     ++ (if truthy (VStr (keywords_str b)) then keywords_str b else "none provided")
     ++ "." ++ nl
     ++ "Deliver: " ++ nl
     ++ "- 6-10 bullet points with key insights, stats (with approximate figures), and pain points" ++ nl
     ++ "- 8-12 SEO keyword ideas (short and long-tail)" ++ nl
     ++ "- 3-5 proposed angles for the article" ++ nl)
    "Bullet list of insights, keyword list, and angles suitable for planning the article."
    researcher
    None.

Definition outline_task (b : Brief) : Task :=
  mkTask
    ("Create a detailed outline using the research. Include: title options, H2/H3 sections,"
     ++ " bullet notes per section, and an SEO snippet plan (title tag + meta description).")
    "A structured outline with 1-2 title options, 5-8 H2s (with optional H3s), and bullet notes."
    strategist
    (Some [research_task b]).

Definition write_task (b : Brief) : Task :=
  mkTask
    ("Write a " ++ fmt (target_word_count b) ++ "-word article based on the outline. Maintain "
     ++ fmt (tone_str b) ++ " tone for " ++ fmt (audience_str b) ++ ". "
     ++ "We are " ++ fmt (brand_str b)
     ++ ". Incorporate the most important keywords naturally and avoid keyword stuffing.")
    "A cohesive article with intro, sections per outline, and a conclusion. No outline or notes, only prose."
    writer
    (Some [research_task b; outline_task b]).

Definition edit_task (b : Brief) : Task :=
  mkTask
    ("Revise the drafted article for clarity, correctness, brand voice, and SEO."
     ++ " Ensure factual consistency with the research. Add a short meta description (<= 160 chars) and a CTA."
     ++ " Return only the final publication-ready article text (followed by the meta description and CTA).")
    "Final polished article text suitable for publishing, then a 'Meta Description:' and 'CTA:' section."
    editor
    (Some [research_task b; outline_task b; write_task b]).

Definition crew (b : Brief) : Crew :=
  mkCrew [researcher; strategist; writer; editor]
         [research_task b; outline_task b; write_task b; edit_task b]
         sequential.

(** [any(x is None for x in [Agent, Task, Crew, Process, LLM])] *)
Definition crewai_missing : bool :=
  existsb (fun x => match x with None => true | Some _ => false end)
          [imp_Agent (crewai w); imp_Task (crewai w); imp_Crew (crewai w);
           imp_Process (crewai w); imp_LLM (crewai w)].

(** Lines 177-183: [Some s] when the [try] block returns [s], [None] when
    control falls out of the [try] statement. *)
Definition editor_final_text (after : KickoffOutcome) (b : Brief) : M (option string) :=
  try_except
    (final_text <- lift (getattr_default (ko_task_attr after (edit_task b) "output")
                                         (OVal VNone)) ;;
     final_text <- (if is_None final_text then ret (OVal VNone)
                    else lift (getattr_default (py_getattr final_text "raw") (OVal VNone))) ;;
     match final_text with
     | OVal (VStr s) =>
         if truthy (VStr (strip s)) then ret (Some (strip s)) else ret None
     | _ => ret None
     end)
    (fun _ => ret None).

Definition blog_generate_using_crewai_content_marketing
    (blogtopic brand_name target_audience tone seo_keywords target_word_count : pyval)
    : M pyval :=
  if crewai_missing then
    print "CrewAI not available; falling back to direct Bedrock call." ;;
    blog_generate_using_bedrock blogtopic
  else
    let audience_str := py_or target_audience (VStr "a general business audience") in
    let tone_str := py_or tone (VStr "helpful, expert, and approachable") in
    let brand_str := py_or brand_name (VStr "our brand") in
    keywords_str <- (if truthy seo_keywords then lift (py_join ", " seo_keywords)
                     else ret "") ;;
    let b := mkBrief blogtopic audience_str tone_str brand_str keywords_str
                     target_word_count in
    result <- call (EvKickoff (crew b)) (crew_kickoff w (crew b)) ;;
    returned <- editor_final_text result b ;;
    match returned with
    | Some final_text => ret (VStr final_text)
    | None => ret (VStr (strip (ko_result_str result)))
    end.

Definition save_blog_details_s3 (s3_key s3_bucket : string) (generate_blog : pyval)
    : M unit :=
  s3 <- call (EvClient "s3" None None) (boto3_client w "s3") ;;
  try_except
    (call (EvPutObject s3_bucket s3_key generate_blog)
          (s3_put_object w s3_bucket s3_key generate_blog) ;;
     print "Content saved to s3")
    (fun e => print ("Error when saving the content to s3" ++ " " ++ exn_str w e)).

Definition lambda_handler (event context : pyval) : M Envelope :=
  raw <- lift (py_getitem event "body") ;;
  event <- lift (py_json_loads raw) ;;
  blogtopic <- lift (py_getitem event "blog_topic") ;;
  brand <- lift (py_get event "brand_name" VNone) ;;
  audience <- lift (py_get event "target_audience" VNone) ;;
  tone <- lift (py_get event "tone" VNone) ;;
  seo_keywords <- lift (py_get event "seo_keywords" VNone) ;;
  word_count <- lift (py_get event "target_word_count" (VInt 700)) ;;
  generate_blog <- blog_generate_using_crewai_content_marketing
                     blogtopic brand audience tone seo_keywords word_count ;;
  (if truthy generate_blog then
     let current_time := strftime "%Y%m%d-%H%M%S" (datetime_now w) in
     let s3_key := "blog-output/" ++ current_time ++ ".txt" in
     let s3_bucket := "aws_bedrock_course1" in
     save_blog_details_s3 s3_key s3_bucket generate_blog
   else
     print "No blog was generated") ;;
  ret (mkEnvelope 200 (json_dumps (VStr "Blog generation is completed"))).

End Script.

Arguments fmt w v : simpl never.
Arguments json_dumps w v : simpl never.

(** The arguments the handler passes on, for a parsed body [d]. *)
Definition dict_get (d : list (string * pyval)) (key : string) (default : pyval) : pyval :=
  match dict_lookup key d with
  | Some x => x
  | None => default
  end.

Definition pipeline_call (w : World) (d : list (string * pyval)) (topic : pyval) : M pyval :=
  blog_generate_using_crewai_content_marketing w topic
    (dict_get d "brand_name" VNone)
    (dict_get d "target_audience" VNone)
    (dict_get d "tone" VNone)
    (dict_get d "seo_keywords" VNone)
    (dict_get d "target_word_count" (VInt 700)).

(** The handler got past lines 200-201: the event has a body, the body is
    JSON for a dict, and the dict has a ['blog_topic']. *)
Definition parsed_request (w : World) (event : pyval)
    (d : list (string * pyval)) (topic : pyval) : Prop :=
  exists raw,
    py_getitem event "body" = Ok raw /\
    py_json_loads w raw = Ok (VDict d) /\
    dict_lookup "blog_topic" d = Some topic.

(** Lines 219-225: the write, or the note that there is nothing to write. *)
Definition persist (w : World) (g : pyval) : M unit :=
  if truthy g then
    save_blog_details_s3 w
      ("blog-output/" ++ strftime "%Y%m%d-%H%M%S" (datetime_now w) ++ ".txt")
      "aws_bedrock_course1" g
  else print "No blog was generated".

(** The value of lines 227-230. *)
Definition completed : Envelope :=
  mkEnvelope 200 (Json.dquote ++ "Blog generation is completed" ++ Json.dquote).

Definition is_put_object (ev : event) : bool :=
  match ev with
  | EvPutObject _ _ _ => true
  | _ => false
  end.

Definition is_kickoff (ev : event) : bool :=
  match ev with
  | EvKickoff _ => true
  | _ => false
  end.

(** A call of the persistence adapter's making: the S3 client or the write. *)
Definition is_s3_call (ev : event) : bool :=
  match ev with
  | EvPutObject _ _ _ => true
  | EvClient service _ _ => String.eqb service "s3"
  | _ => false
  end.

(** A call of the generation paths' making. *)
Definition is_generation_call (ev : event) : bool :=
  match ev with
  | EvInvokeModel _ _ => true
  | EvKickoff _ => true
  | EvClient service _ _ => String.eqb service "bedrock-runtime"
  | _ => false
  end.

(** The Edit stage's textual output after a run, when the task object has
    an [output] that has a [raw] that is a [str]. *)
Definition edit_stage_text (w : World) (after : KickoffOutcome) (b : Brief) : option string :=
  match ko_task_attr after (edit_task w b) "output" with
  | Ok (OObj attr) =>
      match attr "raw" with
      | Ok (OVal (VStr s)) => Some s
      | _ => None
      end
  | _ => None
  end.

(** The brief the staged path works from. *)
Definition brief_of (topic brand_name target_audience tone target_word_count : pyval)
    (keywords : string) : Brief :=
  mkBrief topic
    (py_or target_audience (VStr "a general business audience"))
    (py_or tone (VStr "helpful, expert, and approachable"))
    (py_or brand_name (VStr "our brand"))
    keywords target_word_count.

(** [", ".join(seo_keywords) if seo_keywords else ""] *)
Definition joined_keywords (seo_keywords : pyval) : result string :=
  if truthy seo_keywords then py_join ", " seo_keywords else Ok "".

Definition is_digit_char (c : ascii) : bool :=
  let n := N_of_ascii c in ((48 <=? n) && (n <=? 57))%N.

Fixpoint all_digits (s : string) : bool :=
  match s with
  | EmptyString => true
  | String c s' => is_digit_char c && all_digits s'
  end.

(** The shape YYYYMMDD-HHMMSS. *)
Definition is_timestamp (s : string) : bool :=
  (String.length s =? 15)%nat
  && all_digits (substring 0 8 s)
  && String.eqb (substring 8 1 s) "-"
  && all_digits (substring 9 6 s).

Definition pad4 (n : Z) : string :=
  digit (n / 1000) ++ digit (n / 100) ++ digit (n / 10) ++ digit n.

(** What [datetime.now()] can return, from year 1000 on. *)
Definition plausible_now (t : datetime) : Prop :=
  (1000 <= year t <= 9999)%Z.

(** ** Sample worlds *)

Module Sample.

Definition request : pyval :=
  VDict [("blog_topic", VStr "cloud cost optimization");
         ("target_word_count", VInt 500)].

Definition no_topic : pyval :=
  VDict [("tone", VStr "dry")].

Definition reply : pyval :=
  VDict [("generation", VStr "Cut idle spend first.")].

Definition float_text (x : float) : string :=
  if PrimFloat.eqb x 0.5 then "0.5"
  else if PrimFloat.eqb x 0.9 then "0.9"
  else "0.0".

Definition text (v : pyval) : string := Json.dumps float_text v.

(** [json.loads] on the three texts the examples feed it *)
Definition loads (s : string) : result pyval :=
  if String.eqb s (text request) then Ok request
  else if String.eqb s (text no_topic) then Ok no_topic
  else if String.eqb s (text reply) then Ok reply
  else Raise JSONDecodeError.

Definition show_exn (e : exn) : string :=
  match e with
  | KeyError key => "'" ++ key ++ "'"
  | TypeError => "TypeError"
  | AttributeError => "AttributeError"
  | JSONDecodeError => "JSONDecodeError"
  | OtherError cls => cls
  end.

(** an API Gateway event carrying [v] as its JSON body *)
Definition gateway_event (v : pyval) : pyval :=
  VDict [("body", VStr (text v))].

Definition clock : datetime := mkDatetime 2026 11 3 9 5 7.

Definition model_replies (_ _ : string) : result Response :=
  Ok (mkResponse (Some (Ok (text reply)))).

Definition model_down (_ _ : string) : result Response :=
  Raise (OtherError "ReadTimeoutError").

(** a reply that is JSON but has no ['generation'] *)
Definition model_off_script (_ _ : string) : result Response :=
  Ok (mkResponse (Some (Ok (text no_topic)))).

(** a reply that is not JSON *)
Definition model_garbled (_ _ : string) : result Response :=
  Ok (mkResponse (Some (Ok "<html>"))).

(** a task object whose [output.raw] is [raw] *)
Definition task_with_output (raw : pyval) (name : string) : result pyobj :=
  if String.eqb name "output"
  then Ok (OObj (fun field =>
                   if String.eqb field "raw" then Ok (OVal raw)
                   else Raise AttributeError))
  else Raise AttributeError.

(** a task object whose [output] is still [None] *)
Definition task_without_output (name : string) : result pyobj :=
  if String.eqb name "output" then Ok (OVal VNone) else Raise AttributeError.

Definition article : string :=
  " Trim idle capacity." ++ nl ++ "Meta Description: Spend less." ++ nl
  ++ "CTA: Start today." ++ nl.

Definition crew_runs (_ : Crew) : result KickoffOutcome :=
  Ok (mkOutcome "aggregate text " (fun _ => task_with_output (VStr article))).

Definition crew_runs_blank (_ : Crew) : result KickoffOutcome :=
  Ok (mkOutcome " aggregate text " (fun _ => task_without_output)).

Definition crew_breaks (_ : Crew) : result KickoffOutcome :=
  Raise (OtherError "RuntimeError").

Definition store_accepts (_ _ : string) (_ : pyval) : result unit := Ok tt.

Definition store_refuses (_ _ : string) (_ : pyval) : result unit :=
  Raise (OtherError "ClientError").

Definition world (importable : bool)
    (model : string -> string -> result Response)
    (kickoff : Crew -> result KickoffOutcome)
    (store : string -> string -> pyval -> result unit) : World :=
  mkWorld loads text float_text show_exn (import_crewai importable)
          (fun _ => Ok tt) model kickoff store clock.

(** [boto3.client] when no S3 client can be had *)
Definition client_without_s3 (service : string) : result unit :=
  if String.eqb service "s3" then Raise (OtherError "NoCredentialsError") else Ok tt.

(** CrewAI not installed, the model answers, the store accepts. *)
Definition direct : World := world false model_replies crew_breaks store_accepts.
(** CrewAI installed and the crew runs to the end. *)
Definition staged : World := world true model_replies crew_runs store_accepts.
(** CrewAI installed and the crew fails in mid-run. *)
Definition broken_crew : World := world true model_replies crew_breaks store_accepts.
(** The store refuses the write. *)
Definition full_store : World := world false model_replies crew_breaks store_refuses.
(** The model is unreachable. *)
Definition silent_model : World := world false model_down crew_breaks store_accepts.
(** The model answers, but no S3 client can be created. *)
Definition no_s3 : World :=
  mkWorld loads text float_text show_exn (import_crewai false)
          client_without_s3 model_replies crew_breaks store_accepts clock.

End Sample.

(** ** Further vocabulary for the properties of the whole script *)

Definition is_print (ev : event) : bool :=
  match ev with
  | EvPrint _ => true
  | _ => false
  end.

(** A call of the direct path's making: the Bedrock client or the inference. *)
Definition is_bedrock_call (ev : event) : bool :=
  match ev with
  | EvInvokeModel _ _ => true
  | EvClient service _ _ => String.eqb service "bedrock-runtime"
  | _ => false
  end.

(** Two values that [x or default] cannot tell apart. *)
Definition same_or_falsy (a b : pyval) : Prop :=
  a = b \/ (truthy a = false /\ truthy b = false).

(** Line 221: the key for a clock reading. *)
Definition object_key (t : datetime) : string :=
  "blog-output/" ++ strftime "%Y%m%d-%H%M%S" t ++ ".txt".

(** A [datetime] with a four-digit year. *)
Definition valid_datetime (t : datetime) : Prop :=
  (1000 <= year t <= 9999 /\ 1 <= month t <= 12 /\ 1 <= day t <= 31 /\
   0 <= hour t <= 23 /\ 0 <= minute t <= 59 /\ 0 <= second t <= 59)%Z.

(** The brief the staged path builds for a parsed body [d]. *)
Definition request_brief (d : list (string * pyval)) (topic : pyval) (ks : string) : Brief :=
  brief_of topic
    (dict_get d "brand_name" VNone)
    (dict_get d "target_audience" VNone)
    (dict_get d "tone" VNone)
    (dict_get d "target_word_count" (VInt 700))
    ks.

Module Cases.

(** a crew that runs to the end and leaves nothing but whitespace *)
Definition crew_runs_dry (_ : Crew) : result KickoffOutcome :=
  Ok (mkOutcome ("  " ++ nl) (fun _ => Sample.task_with_output (VStr " "))).

Definition dry : World :=
  Sample.world true Sample.model_replies crew_runs_dry Sample.store_accepts.

Definition later : datetime := mkDatetime 2026 11 3 9 5 8.

End Cases.

(** ** Facts about computations *)

Section MonadFacts.

Context {A B : Type}.

Lemma outcome_bind (m : M A) (f : A -> M B) :
  outcome (bind m f) =
  match outcome m with Ok a => outcome (f a) | Raise e => Raise e end.
Proof.
  destruct m as [l [a | e]]; cbn; [destruct (f a) |]; reflexivity.
Qed.

Lemma trace_bind (m : M A) (f : A -> M B) :
  trace (bind m f) =
  (trace m ++ match outcome m with Ok a => trace (f a) | Raise _ => [] end)%list.
Proof.
  destruct m as [l [a | e]]; cbn; [destruct (f a) | rewrite app_nil_r]; reflexivity.
Qed.

Lemma bind_lift_ok (a : A) (f : A -> M B) : bind (lift (Ok a)) f = f a.
Proof. unfold bind, lift. destruct (f a); reflexivity. Qed.

Lemma bind_lift_raise (e : exn) (f : A -> M B) : bind (lift (Raise e)) f = raise e.
Proof. reflexivity. Qed.

Lemma bind_ret (a : A) (f : A -> M B) : bind (ret a) f = f a.
Proof. apply bind_lift_ok. Qed.

Lemma bind_call_ok (ev : event) (a : A) (f : A -> M B) :
  bind (call ev (Ok a)) f = (ev :: trace (f a), outcome (f a)).
Proof. unfold bind, call. destruct (f a); reflexivity. Qed.

Lemma bind_call_raise (ev : event) (e : exn) (f : A -> M B) :
  bind (call ev (Raise e)) f = ([ev], Raise e).
Proof. reflexivity. Qed.

End MonadFacts.

Lemma outcome_try {A} (m : M A) (h : exn -> M A) :
  outcome (try_except m h) =
  match outcome m with Ok a => Ok a | Raise e => outcome (h e) end.
Proof.
  destruct m as [l [a | e]]; cbn; [| destruct (h e)]; reflexivity.
Qed.

Lemma trace_try {A} (m : M A) (h : exn -> M A) :
  trace (try_except m h) =
  (trace m ++ match outcome m with Ok _ => [] | Raise e => trace (h e) end)%list.
Proof.
  destruct m as [l [a | e]]; cbn; [rewrite app_nil_r | destruct (h e)]; reflexivity.
Qed.

Lemma M_eta {A} (m : M A) : m = (trace m, outcome m).
Proof. destruct m; reflexivity. Qed.

(** The direct path *)
Lemma bedrock_outcome w topic :
  outcome (blog_generate_using_bedrock w topic) =
  match outcome (invoke_and_decode w topic) with
  | Ok g => Ok g
  | Raise _ => Ok (VStr "")
  end.
Proof.
  unfold blog_generate_using_bedrock. rewrite outcome_try.
  destruct (outcome (invoke_and_decode w topic)); reflexivity.
Qed.

Lemma invoke_and_decode_calls w topic :
  forallb (fun ev => negb (is_s3_call ev) && negb (is_kickoff ev))
          (trace (invoke_and_decode w topic)) = true.
Proof.
  unfold invoke_and_decode.
  destruct (boto3_client w "bedrock-runtime") as [c | e]; [| reflexivity].
  rewrite bind_call_ok. cbn [trace fst forallb is_s3_call is_kickoff String.eqb Ascii.eqb Bool.eqb negb andb].
  destruct (bedrock_invoke_model w _ _) as [r | e]; [| reflexivity].
  rewrite bind_call_ok. cbn [trace fst forallb is_s3_call is_kickoff negb andb].
  destruct (resp_body r) as [[s | e] |]; try reflexivity.
  rewrite bind_lift_ok.
  destruct (json_loads w s) as [d | e]; [| reflexivity].
  rewrite bind_lift_ok. unfold print. rewrite bind_call_ok.
  cbn [trace fst forallb is_s3_call is_kickoff negb andb].
  destruct (py_getitem d "generation"); reflexivity.
Qed.

Lemma bedrock_calls w topic :
  forallb (fun ev => negb (is_s3_call ev) && negb (is_kickoff ev))
          (trace (blog_generate_using_bedrock w topic)) = true.
Proof.
  unfold blog_generate_using_bedrock. rewrite trace_try, forallb_app.
  rewrite invoke_and_decode_calls.
  destruct (outcome (invoke_and_decode w topic)); reflexivity.
Qed.

Lemma editor_final_text_value w after b :
  editor_final_text w after b =
  ret match edit_stage_text w after b with
      | Some s => if truthy (VStr (strip s)) then Some (strip s) else None
      | None => None
      end.
Proof.
  unfold editor_final_text, edit_stage_text.
  destruct (ko_task_attr after (edit_task w b) "output") as [[v | attr] | e].
  - destruct v; reflexivity.
  - cbn [getattr_default]. rewrite bind_lift_ok. cbn [is_None py_getattr].
    destruct (attr "raw") as [[v | a] | e].
    + cbn [getattr_default]. rewrite bind_lift_ok.
      destruct v; try reflexivity.
      destruct (truthy (VStr (strip s))); reflexivity.
    + reflexivity.
    + destruct e; reflexivity.
  - destruct e; reflexivity.
Qed.

Lemma staged_path w topic brand audience tone kws n :
  crewai_missing w = false ->
  blog_generate_using_crewai_content_marketing w topic brand audience tone kws n =
  match joined_keywords kws with
  | Raise e => ([], Raise e)
  | Ok ks =>
      let b := brief_of topic brand audience tone n ks in
      ([EvKickoff (crew w b)],
       match crew_kickoff w (crew w b) with
       | Raise e => Raise e
       | Ok after =>
           Ok (VStr match edit_stage_text w after b with
                    | Some s => if truthy (VStr (strip s)) then strip s
                                else strip (ko_result_str after)
                    | None => strip (ko_result_str after)
                    end)
       end)
  end.
Proof.
  intros Hc. unfold blog_generate_using_crewai_content_marketing, joined_keywords.
  rewrite Hc.
  assert (Hj : forall r : result string,
             (if truthy kws then lift r else ret "") =
             lift (if truthy kws then r else Ok "")).
  { intros r. destruct (truthy kws); reflexivity. }
  rewrite Hj.
  destruct (if truthy kws then py_join ", " kws else Ok "") as [ks | e];
    [| reflexivity]. rewrite (bind_lift_ok ks).
  fold (brief_of topic brand audience tone n ks).
  set (b := brief_of topic brand audience tone n ks).
  cbv zeta.
  destruct (crew_kickoff w (crew w b)) as [after | e]; [| reflexivity].
  rewrite bind_call_ok. rewrite editor_final_text_value, bind_ret.
  destruct (edit_stage_text w after b) as [s |]; [| reflexivity].
  destruct (truthy (VStr (strip s))); reflexivity.
Qed.

Lemma fallback_path w topic brand audience tone kws n :
  crewai_missing w = true ->
  blog_generate_using_crewai_content_marketing w topic brand audience tone kws n =
  (EvPrint "CrewAI not available; falling back to direct Bedrock call."
     :: trace (blog_generate_using_bedrock w topic),
   outcome (blog_generate_using_bedrock w topic)).
Proof.
  intros Hc. unfold blog_generate_using_crewai_content_marketing. rewrite Hc.
  exact (bind_call_ok _ tt (fun _ => blog_generate_using_bedrock w topic)).
Qed.

Lemma pipeline_makes_no_s3_call w topic brand audience tone kws n :
  existsb is_s3_call
    (trace (blog_generate_using_crewai_content_marketing w topic brand audience tone kws n))
  = false.
Proof.
  destruct (crewai_missing w) eqn:Hc.
  - rewrite fallback_path by assumption. cbn [trace fst existsb is_s3_call orb].
    pose proof (bedrock_calls w topic) as H.
    induction (trace (blog_generate_using_bedrock w topic)) as [| ev l IH];
      [reflexivity |].
    cbn in H |- *. apply andb_prop in H as [H1 H2].
    apply andb_prop in H1 as [H1 _]. rewrite (IH H2).
    destruct (is_s3_call ev); [discriminate | reflexivity].
  - rewrite staged_path by assumption.
    destruct (joined_keywords kws); reflexivity.
Qed.

(** The handler *)

Lemma py_get_dict d key default :
  py_get (VDict d) key default = Ok (dict_get d key default).
Proof. unfold py_get, dict_get. destruct (dict_lookup key d); reflexivity. Qed.

Lemma handler_after_parsing w event ctx d topic :
  parsed_request w event d topic ->
  lambda_handler w event ctx =
  (generate_blog <- pipeline_call w d topic ;;
   persist w generate_blog ;;
   ret completed).
Proof.
  intros (raw & Hbody & Hloads & Htopic).
  unfold lambda_handler. rewrite Hbody, (bind_lift_ok raw).
  rewrite Hloads, (bind_lift_ok (VDict d)).
  unfold py_getitem at 1. rewrite Htopic, (bind_lift_ok topic).
  rewrite !py_get_dict.
  rewrite (bind_lift_ok (dict_get d "brand_name" VNone)).
  rewrite (bind_lift_ok (dict_get d "target_audience" VNone)).
  rewrite (bind_lift_ok (dict_get d "tone" VNone)).
  rewrite (bind_lift_ok (dict_get d "seo_keywords" VNone)).
  rewrite (bind_lift_ok (dict_get d "target_word_count" (VInt 700))).
  reflexivity.
Qed.

Lemma save_blog_details_s3_run w key bucket g :
  boto3_client w "s3" = Ok tt ->
  save_blog_details_s3 w key bucket g =
  ([EvClient "s3" None None;
    EvPutObject bucket key g;
    EvPrint match s3_put_object w bucket key g with
            | Ok _ => "Content saved to s3"
            | Raise e => "Error when saving the content to s3 " ++ exn_str w e
            end],
   Ok tt).
Proof.
  intros Hc. unfold save_blog_details_s3. rewrite Hc, bind_call_ok.
  destruct (s3_put_object w bucket key g) as [[] | e]; reflexivity.
Qed.

Lemma handler_run w event ctx d topic :
  parsed_request w event d topic ->
  lambda_handler w event ctx =
  ((trace (pipeline_call w d topic) ++
    match outcome (pipeline_call w d topic) with
    | Ok g => trace (persist w g)
    | Raise _ => []
    end)%list,
   match outcome (pipeline_call w d topic) with
   | Ok g => match outcome (persist w g) with
             | Ok _ => Ok completed
             | Raise e => Raise e
             end
   | Raise e => Raise e
   end).
Proof.
  intros Hp. rewrite (handler_after_parsing _ _ _ _ _ Hp).
  destruct (pipeline_call w d topic) as [l [g | e]]; cbn [trace outcome fst snd bind].
  - destruct (persist w g) as [l' [[] | e]]; cbn; rewrite ?app_nil_r; reflexivity.
  - rewrite app_nil_r. reflexivity.
Qed.

(** ** The response envelope (C1, C8, C10) *)

Lemma import_failure_means_missing w :
  crewai w = import_crewai false -> crewai_missing w = true.
Proof. intros H. unfold crewai_missing. rewrite H. reflexivity. Qed.

Lemma sample_request_parsed w :
  json_loads w = Sample.loads ->
  parsed_request w (Sample.gateway_event Sample.request)
    [("blog_topic", VStr "cloud cost optimization"); ("target_word_count", VInt 500)]
    (VStr "cloud cost optimization").
Proof.
  intros Hw. exists (VStr (Sample.text Sample.request)).
  split; [reflexivity | split; [| reflexivity]].
  unfold py_json_loads. rewrite Hw. vm_compute. reflexivity.
Qed.

(** C1, as amended.  Once the handler is past input parsing, and provided
    the content pipeline call returns a value (rather than raising) and,
    when there is text to store, the S3 client can be created, the handler
    returns the fixed envelope with status 200 and the JSON text of
    "Blog generation is completed" as its body; this holds whatever the
    pipeline returned and whether or not the write succeeded. *)
Theorem handler_returns_completed w event ctx d topic g :
  parsed_request w event d topic ->
  outcome (pipeline_call w d topic) = Ok g ->
  (truthy g = true -> boto3_client w "s3" = Ok tt) ->
  outcome (lambda_handler w event ctx) = Ok completed.
Proof.
  intros Hp Hg Hs3.
  rewrite (handler_run _ _ _ _ _ Hp). cbn [outcome snd]. fold (outcome (pipeline_call w d topic)).
  rewrite Hg. unfold persist.
  destruct (truthy g).
  - rewrite save_blog_details_s3_run by auto. reflexivity.
  - reflexivity.
Qed.

Lemma handler_returns_completed_witness :
  outcome (lambda_handler Sample.full_store (Sample.gateway_event Sample.request) VNone)
  = Ok completed.
Proof.
  apply (handler_returns_completed Sample.full_store _ VNone
           [("blog_topic", VStr "cloud cost optimization");
            ("target_word_count", VInt 500)]
           (VStr "cloud cost optimization") (VStr "Cut idle spend first.")).
  - apply sample_request_parsed. reflexivity.
  - vm_compute. reflexivity.
  - reflexivity.
Defined.

(** C1, as stated, fails: with CrewAI installed and the crew failing in
    mid-run, the handler is past input parsing and yet returns no envelope:
    the framework's exception leaves the handler.  The same happens when
    there is text to store and the S3 client cannot be created. *)
Lemma handler_raises_when_crew_breaks :
  (parsed_request Sample.broken_crew (Sample.gateway_event Sample.request)
     [("blog_topic", VStr "cloud cost optimization"); ("target_word_count", VInt 500)]
     (VStr "cloud cost optimization") /\
   outcome (lambda_handler Sample.broken_crew (Sample.gateway_event Sample.request) VNone)
   = Raise (OtherError "RuntimeError")) /\
  (parsed_request Sample.no_s3 (Sample.gateway_event Sample.request)
     [("blog_topic", VStr "cloud cost optimization"); ("target_word_count", VInt 500)]
     (VStr "cloud cost optimization") /\
   outcome (lambda_handler Sample.no_s3 (Sample.gateway_event Sample.request) VNone)
   = Raise (OtherError "NoCredentialsError")).
Proof.
  split; (split; [apply sample_request_parsed; reflexivity | vm_compute; reflexivity]).
Qed.

(** C8.  When the pipeline returned non-empty text and the write to the
    object store raises, the exception is caught inside
    [save_blog_details_s3], which logs it and returns normally, and the
    handler still returns the fixed envelope. *)
Theorem write_failure_keeps_envelope w event ctx d topic g e :
  parsed_request w event d topic ->
  outcome (pipeline_call w d topic) = Ok g ->
  truthy g = true ->
  boto3_client w "s3" = Ok tt ->
  s3_put_object w "aws_bedrock_course1"
    ("blog-output/" ++ strftime "%Y%m%d-%H%M%S" (datetime_now w) ++ ".txt") g
  = Raise e ->
  save_blog_details_s3 w
    ("blog-output/" ++ strftime "%Y%m%d-%H%M%S" (datetime_now w) ++ ".txt")
    "aws_bedrock_course1" g
  = ([EvClient "s3" None None;
      EvPutObject "aws_bedrock_course1"
        ("blog-output/" ++ strftime "%Y%m%d-%H%M%S" (datetime_now w) ++ ".txt") g;
      EvPrint ("Error when saving the content to s3 " ++ exn_str w e)],
     Ok tt) /\
  In (EvPrint ("Error when saving the content to s3 " ++ exn_str w e))
     (trace (lambda_handler w event ctx)) /\
  outcome (lambda_handler w event ctx) = Ok completed.
Proof.
  intros Hp Hg Ht Hs3 Hput.
  split; [rewrite save_blog_details_s3_run, Hput by assumption; reflexivity |].
  assert (Hrun : persist w g =
                 ([EvClient "s3" None None;
                   EvPutObject "aws_bedrock_course1"
                     ("blog-output/" ++ strftime "%Y%m%d-%H%M%S" (datetime_now w) ++ ".txt") g;
                   EvPrint ("Error when saving the content to s3 " ++ exn_str w e)],
                  Ok tt)).
  { unfold persist. rewrite Ht, save_blog_details_s3_run, Hput by assumption.
    reflexivity. }
  rewrite (handler_run _ _ _ _ _ Hp), Hg, Hrun. cbn [trace outcome fst snd].
  split; [| reflexivity].
  apply in_or_app. right. right. right. left. reflexivity.
Qed.

Lemma write_failure_keeps_envelope_witness :
  In (EvPrint "Error when saving the content to s3 ClientError")
     (trace (lambda_handler Sample.full_store (Sample.gateway_event Sample.request) VNone)) /\
  outcome (lambda_handler Sample.full_store (Sample.gateway_event Sample.request) VNone)
  = Ok completed.
Proof.
  apply (write_failure_keeps_envelope Sample.full_store
           (Sample.gateway_event Sample.request) VNone
           [("blog_topic", VStr "cloud cost optimization");
            ("target_word_count", VInt 500)]
           (VStr "cloud cost optimization") (VStr "Cut idle spend first.")
           (OtherError "ClientError")).
  - apply sample_request_parsed. reflexivity.
  - vm_compute. reflexivity.
  - reflexivity.
  - reflexivity.
  - reflexivity.
Defined.

(** C10.  When the pipeline returns an empty string (or any other falsy
    value), the handler only logs that nothing was generated: its log is the
    pipeline's followed by that one line, it holds no S3 client creation
    and no [put_object], and the fixed envelope is returned. *)
Theorem empty_text_is_not_stored w event ctx d topic g :
  parsed_request w event d topic ->
  outcome (pipeline_call w d topic) = Ok g ->
  truthy g = false ->
  trace (lambda_handler w event ctx)
  = (trace (pipeline_call w d topic) ++ [EvPrint "No blog was generated"])%list /\
  existsb is_s3_call (trace (lambda_handler w event ctx)) = false /\
  outcome (lambda_handler w event ctx) = Ok completed.
Proof.
  intros Hp Hg Ht.
  rewrite (handler_run _ _ _ _ _ Hp), Hg. unfold persist. rewrite Ht.
  cbn [trace outcome fst snd print call].
  repeat split.
  rewrite existsb_app. unfold pipeline_call.
  rewrite pipeline_makes_no_s3_call. reflexivity.
Qed.

Lemma empty_text_is_not_stored_witness :
  existsb is_s3_call
    (trace (lambda_handler Sample.silent_model (Sample.gateway_event Sample.request) VNone))
  = false /\
  outcome (lambda_handler Sample.silent_model (Sample.gateway_event Sample.request) VNone)
  = Ok completed.
Proof.
  apply (empty_text_is_not_stored Sample.silent_model
           (Sample.gateway_event Sample.request) VNone
           [("blog_topic", VStr "cloud cost optimization");
            ("target_word_count", VInt 500)]
           (VStr "cloud cost optimization") (VStr "")).
  - apply sample_request_parsed. reflexivity.
  - vm_compute. reflexivity.
  - reflexivity.
Defined.

(** ** Input validation (C7) *)

(** C7.  When the event's body is not JSON, or is JSON whose value has no
    ['blog_topic'] entry, the invocation ends in an uncaught exception and
    its log is empty: no generation call and no write was attempted. *)
Theorem missing_topic_fails_before_any_call w event ctx raw :
  py_getitem event "body" = Ok raw ->
  (exists e, py_json_loads w raw = Raise e) \/
  (exists parsed, py_json_loads w raw = Ok parsed /\
                  forall d, parsed = VDict d -> dict_lookup "blog_topic" d = None) ->
  exists e, lambda_handler w event ctx = ([], Raise e).
Proof.
  intros Hbody [[e Hbad] | (parsed & Hloads & Hmissing)];
    unfold lambda_handler; rewrite Hbody, (bind_lift_ok raw).
  - exists e. rewrite Hbad. reflexivity.
  - rewrite Hloads, (bind_lift_ok parsed).
    destruct parsed; try (exists TypeError; reflexivity).
    exists (KeyError "blog_topic").
    unfold py_getitem at 1. rewrite (Hmissing d eq_refl). reflexivity.
Qed.

Lemma missing_topic_fails_before_any_call_witness :
  exists e,
    lambda_handler Sample.direct (Sample.gateway_event Sample.no_topic) VNone
    = ([], Raise e).
Proof.
  apply (missing_topic_fails_before_any_call Sample.direct
           (Sample.gateway_event Sample.no_topic) VNone
           (VStr (Sample.text Sample.no_topic))).
  - reflexivity.
  - right. exists Sample.no_topic. split.
    + vm_compute. reflexivity.
    + intros d Hd. injection Hd as <-. reflexivity.
Defined.

(** ** The stored object (C9) *)

Lemma z_str_four_digits y : (1000 <= y <= 9999)%Z -> z_str y = pad4 y.
Proof.
  intros Hy.
  assert (Hall : forallb (fun k => String.eqb (z_str (Z.of_nat k)) (pad4 (Z.of_nat k)))
                         (seq (Z.to_nat 1000) (Z.to_nat 9000)) = true) by (vm_compute; reflexivity).
  rewrite forallb_forall in Hall.
  specialize (Hall (Z.to_nat y)). rewrite Z2Nat.id in Hall by lia.
  apply String.eqb_eq, Hall, in_seq. lia.
Qed.

Lemma digit_shape n :
  exists c, digit n = String c EmptyString /\ is_digit_char c = true.
Proof.
  unfold digit. eexists. split; [reflexivity |].
  pose proof (Z.mod_pos_bound n 10 eq_refl) as Hb.
  assert (Hc : (n mod 10 = 0 \/ n mod 10 = 1 \/ n mod 10 = 2 \/ n mod 10 = 3 \/
                n mod 10 = 4 \/ n mod 10 = 5 \/ n mod 10 = 6 \/ n mod 10 = 7 \/
                n mod 10 = 8 \/ n mod 10 = 9)%Z) by lia.
  repeat (destruct Hc as [-> | Hc]; [reflexivity |]). rewrite Hc. reflexivity.
Qed.

Lemma strftime_stamp t :
  strftime "%Y%m%d-%H%M%S" t =
  z_str (year t) ++ pad2 (month t) ++ pad2 (day t) ++ "-"
  ++ pad2 (hour t) ++ pad2 (minute t) ++ pad2 (second t).
Proof. reflexivity. Qed.

Lemma stamp_shape t :
  plausible_now t -> is_timestamp (strftime "%Y%m%d-%H%M%S" t) = true.
Proof.
  intros Hy. rewrite strftime_stamp, (z_str_four_digits _ Hy).
  unfold pad4, pad2.
  repeat match goal with
         | |- context [digit ?n] =>
             let c := fresh "c" in
             let Hc := fresh "Hc" in
             destruct (digit_shape n) as (c & -> & Hc)
         end.
  unfold is_timestamp. cbn -[is_digit_char].
  repeat match goal with H : is_digit_char _ = true |- _ => rewrite H; clear H end.
  reflexivity.
Qed.

Lemma pipeline_call_makes_no_write w d topic :
  filter is_put_object (trace (pipeline_call w d topic)) = [].
Proof.
  pose proof (pipeline_makes_no_s3_call w topic
                (dict_get d "brand_name" VNone) (dict_get d "target_audience" VNone)
                (dict_get d "tone" VNone) (dict_get d "seo_keywords" VNone)
                (dict_get d "target_word_count" (VInt 700))) as H.
  fold (pipeline_call w d topic) in H.
  induction (trace (pipeline_call w d topic)) as [| ev l IH]; [reflexivity |].
  cbn in H |- *. apply orb_false_elim in H as [H1 H2].
  destruct ev; cbn in H1 |- *; try discriminate; auto.
Qed.

(** C9, as amended.  When the pipeline returns non-empty text and the S3
    client is created, the text is written verbatim: the invocation makes
    exactly one [put_object] call, whose Bucket is the fixed name, whose
    Body is the value the pipeline returned, unchanged, and whose Key is
    "blog-output/" followed by the clock reading formatted by
    '%Y%m%d-%H%M%S' and ".txt".  The formatted reading is the year followed
    by two-digit month and day, a dash, and two-digit hour, minute and
    second, which has the shape YYYYMMDD-HHMMSS for a four-digit year. *)
Theorem text_is_stored_verbatim w event ctx d topic g :
  parsed_request w event d topic ->
  outcome (pipeline_call w d topic) = Ok g ->
  truthy g = true ->
  boto3_client w "s3" = Ok tt ->
  filter is_put_object (trace (lambda_handler w event ctx))
  = [EvPutObject "aws_bedrock_course1"
       ("blog-output/" ++ strftime "%Y%m%d-%H%M%S" (datetime_now w) ++ ".txt") g] /\
  trace (lambda_handler w event ctx)
  = (trace (pipeline_call w d topic) ++
     trace (save_blog_details_s3 w
              ("blog-output/" ++ strftime "%Y%m%d-%H%M%S" (datetime_now w) ++ ".txt")
              "aws_bedrock_course1" g))%list /\
  strftime "%Y%m%d-%H%M%S" (datetime_now w)
  = z_str (year (datetime_now w)) ++ pad2 (month (datetime_now w))
    ++ pad2 (day (datetime_now w)) ++ "-" ++ pad2 (hour (datetime_now w))
    ++ pad2 (minute (datetime_now w)) ++ pad2 (second (datetime_now w)) /\
  (plausible_now (datetime_now w) ->
   is_timestamp (strftime "%Y%m%d-%H%M%S" (datetime_now w)) = true).
Proof.
  intros Hp Hg Ht Hs3.
  assert (Htrace : trace (lambda_handler w event ctx)
                   = (trace (pipeline_call w d topic) ++
                      trace (save_blog_details_s3 w
                               ("blog-output/" ++ strftime "%Y%m%d-%H%M%S" (datetime_now w)
                                ++ ".txt")
                               "aws_bedrock_course1" g))%list).
  { rewrite (handler_run _ _ _ _ _ Hp), Hg. unfold persist. rewrite Ht. reflexivity. }
  split; [| split; [exact Htrace | split; [apply strftime_stamp | apply stamp_shape]]].
  rewrite Htrace, save_blog_details_s3_run by assumption.
  cbn [trace fst]. rewrite filter_app.
  rewrite pipeline_call_makes_no_write. reflexivity.
Qed.

Lemma text_is_stored_verbatim_witness :
  filter is_put_object
    (trace (lambda_handler Sample.direct (Sample.gateway_event Sample.request) VNone))
  = [EvPutObject "aws_bedrock_course1" "blog-output/20261103-090507.txt"
       (VStr "Cut idle spend first.")].
Proof.
  destruct (text_is_stored_verbatim Sample.direct
              (Sample.gateway_event Sample.request) VNone
              [("blog_topic", VStr "cloud cost optimization");
               ("target_word_count", VInt 500)]
              (VStr "cloud cost optimization") (VStr "Cut idle spend first."))
    as (Hput & _).
  - apply sample_request_parsed. reflexivity.
  - vm_compute. reflexivity.
  - reflexivity.
  - reflexivity.
  - exact Hput.
Defined.

(** C9, as stated, fails: when no S3 client can be created, the request is
    parsed and the pipeline returns non-empty text, yet the invocation
    makes no [put_object] call at all: the text is not written. *)
Lemma text_is_not_stored_without_client :
  parsed_request Sample.no_s3 (Sample.gateway_event Sample.request)
    [("blog_topic", VStr "cloud cost optimization"); ("target_word_count", VInt 500)]
    (VStr "cloud cost optimization") /\
  outcome (pipeline_call Sample.no_s3
             [("blog_topic", VStr "cloud cost optimization");
              ("target_word_count", VInt 500)]
             (VStr "cloud cost optimization"))
  = Ok (VStr "Cut idle spend first.") /\
  truthy (VStr "Cut idle spend first.") = true /\
  filter is_put_object
    (trace (lambda_handler Sample.no_s3 (Sample.gateway_event Sample.request) VNone))
  = [].
Proof.
  split; [apply sample_request_parsed; reflexivity |].
  split; [vm_compute; reflexivity |].
  split; [reflexivity | vm_compute; reflexivity].
Qed.

(** ** Direct generation (C3) and the fallback to it (C2) *)

Lemma invoke_and_decode_run w topic r s :
  boto3_client w "bedrock-runtime" = Ok tt ->
  bedrock_invoke_model w (json_dumps w (bedrock_body w topic)) "meta.llama2-13b-chat-v1"
  = Ok r ->
  resp_body r = Some (Ok s) ->
  outcome (invoke_and_decode w topic) =
  match json_loads w s with
  | Ok response_data => py_getitem response_data "generation"
  | Raise e => Raise e
  end.
Proof.
  intros Hc Hr Hs. unfold invoke_and_decode.
  rewrite Hc, bind_call_ok. cbn [outcome snd].
  rewrite Hr, bind_call_ok. cbn [outcome snd].
  rewrite Hs, (bind_lift_ok s).
  destruct (json_loads w s) as [response_data | e]; [| reflexivity].
  rewrite (bind_lift_ok response_data). unfold print. rewrite bind_call_ok.
  cbn [outcome snd].
  destruct (py_getitem response_data "generation"); reflexivity.
Qed.

(** C3.  [blog_generate_using_bedrock] never raises.  It returns the
    ['generation'] entry of the decoded response when the inference call
    and the decoding succeed, and the empty string, after logging the
    error, whenever the body of its [try] statement raises; in particular
    when the response text is not JSON and when the decoded response has
    no ['generation'] entry. *)
Theorem direct_generation_text_or_empty w topic :
  (exists v, outcome (blog_generate_using_bedrock w topic) = Ok v) /\
  (forall g, outcome (invoke_and_decode w topic) = Ok g ->
             outcome (blog_generate_using_bedrock w topic) = Ok g) /\
  (forall e, outcome (invoke_and_decode w topic) = Raise e ->
             outcome (blog_generate_using_bedrock w topic) = Ok (VStr "") /\
             In (EvPrint ("Error generating the blog:" ++ exn_str w e))
                (trace (blog_generate_using_bedrock w topic))) /\
  (forall r s,
      boto3_client w "bedrock-runtime" = Ok tt ->
      bedrock_invoke_model w (json_dumps w (bedrock_body w topic))
        "meta.llama2-13b-chat-v1" = Ok r ->
      resp_body r = Some (Ok s) ->
      (forall response_data g,
          json_loads w s = Ok response_data ->
          py_getitem response_data "generation" = Ok g ->
          outcome (blog_generate_using_bedrock w topic) = Ok g) /\
      (forall e, json_loads w s = Raise e ->
                 outcome (blog_generate_using_bedrock w topic) = Ok (VStr "")) /\
      (forall response_data e,
          json_loads w s = Ok response_data ->
          py_getitem response_data "generation" = Raise e ->
          outcome (blog_generate_using_bedrock w topic) = Ok (VStr ""))).
Proof.
  split; [| split; [| split]].
  - rewrite bedrock_outcome.
    destruct (outcome (invoke_and_decode w topic)); eauto.
  - intros g Hg. rewrite bedrock_outcome, Hg. reflexivity.
  - intros e He. split.
    + rewrite bedrock_outcome, He. reflexivity.
    + unfold blog_generate_using_bedrock. rewrite trace_try, He.
      apply in_or_app. right. left. reflexivity.
  - intros r s Hc Hr Hs. rewrite bedrock_outcome.
    rewrite (invoke_and_decode_run w topic r s) by assumption.
    split; [| split].
    + intros d g Hd Hg. rewrite Hd, Hg. reflexivity.
    + intros e He. rewrite He. reflexivity.
    + intros d e Hd He. rewrite Hd, He. reflexivity.
Qed.

Lemma direct_generation_text_or_empty_witness :
  outcome (blog_generate_using_bedrock Sample.direct (VStr "cloud cost optimization"))
  = Ok (VStr "Cut idle spend first.") /\
  outcome (blog_generate_using_bedrock Sample.silent_model (VStr "cloud cost optimization"))
  = Ok (VStr "") /\
  outcome (blog_generate_using_bedrock
             (Sample.world false Sample.model_garbled Sample.crew_breaks Sample.store_accepts)
             (VStr "cloud cost optimization"))
  = Ok (VStr "") /\
  outcome (blog_generate_using_bedrock
             (Sample.world false Sample.model_off_script Sample.crew_breaks Sample.store_accepts)
             (VStr "cloud cost optimization"))
  = Ok (VStr "").
Proof.
  split; [| split; [| split]].
  - destruct (direct_generation_text_or_empty Sample.direct
                (VStr "cloud cost optimization")) as (_ & H & _).
    apply (H (VStr "Cut idle spend first.")). vm_compute. reflexivity.
  - destruct (direct_generation_text_or_empty Sample.silent_model
                (VStr "cloud cost optimization")) as (_ & _ & H & _).
    apply (H (OtherError "ReadTimeoutError")). vm_compute. reflexivity.
  - destruct (direct_generation_text_or_empty
                (Sample.world false Sample.model_garbled Sample.crew_breaks
                   Sample.store_accepts)
                (VStr "cloud cost optimization")) as (_ & _ & _ & H).
    assert (Hbad : forall e, json_loads (Sample.world false Sample.model_garbled
                               Sample.crew_breaks Sample.store_accepts) "<html>" = Raise e -> _)
      by (apply (H (mkResponse (Some (Ok "<html>"))) "<html>"); vm_compute; reflexivity).
    apply (Hbad JSONDecodeError). vm_compute. reflexivity.
  - destruct (direct_generation_text_or_empty
                (Sample.world false Sample.model_off_script Sample.crew_breaks
                   Sample.store_accepts)
                (VStr "cloud cost optimization")) as (_ & _ & _ & H).
    assert (Hmiss : forall response_data e,
               json_loads (Sample.world false Sample.model_off_script
                             Sample.crew_breaks Sample.store_accepts)
                          (Sample.text Sample.no_topic) = Ok response_data ->
               py_getitem response_data "generation" = Raise e -> _)
      by (apply (H (mkResponse (Some (Ok (Sample.text Sample.no_topic))))
                   (Sample.text Sample.no_topic)); vm_compute; reflexivity).
    apply (Hmiss Sample.no_topic (KeyError "generation")); vm_compute; reflexivity.
Defined.

(** C2.  When any of the five framework names is [None] (as all are when
    the import failed), the staged function logs the fallback and runs
    Direct Generation for the same topic: its result is that of
    [blog_generate_using_bedrock], its log is the fallback line followed by
    the direct path's log, and [kickoff] is never called, so no stage runs. *)
Theorem fallback_is_direct_generation w topic brand audience tone kws n :
  crewai_missing w = true ->
  outcome (blog_generate_using_crewai_content_marketing w topic brand audience tone kws n)
  = outcome (blog_generate_using_bedrock w topic) /\
  trace (blog_generate_using_crewai_content_marketing w topic brand audience tone kws n)
  = EvPrint "CrewAI not available; falling back to direct Bedrock call."
      :: trace (blog_generate_using_bedrock w topic) /\
  existsb is_kickoff
    (trace (blog_generate_using_crewai_content_marketing w topic brand audience tone kws n))
  = false.
Proof.
  intros Hc. rewrite fallback_path by assumption. cbn [trace outcome fst snd].
  repeat split. cbn [existsb is_kickoff orb].
  pose proof (bedrock_calls w topic) as H.
  induction (trace (blog_generate_using_bedrock w topic)) as [| ev l IH];
    [reflexivity |].
  cbn in H |- *. apply andb_prop in H as [H1 H2].
  apply andb_prop in H1 as [_ H1]. rewrite (IH H2).
  destruct (is_kickoff ev); [discriminate | reflexivity].
Qed.

Lemma fallback_is_direct_generation_witness :
  outcome (blog_generate_using_crewai_content_marketing Sample.direct
             (VStr "cloud cost optimization") VNone VNone VNone VNone (VInt 500))
  = outcome (blog_generate_using_bedrock Sample.direct (VStr "cloud cost optimization")).
Proof.
  apply (fallback_is_direct_generation Sample.direct (VStr "cloud cost optimization")
           VNone VNone VNone VNone (VInt 500)).
  apply import_failure_means_missing. reflexivity.
Defined.

(** ** The staged path (C4, C5, C6) *)

(** C4, as amended.  When the framework is unavailable the pipeline call
    never raises: it returns the direct path's text or the empty string.
    When the framework is available and the keyword list joins, an
    exception raised by [crew.kickoff()] is raised to the caller unchanged,
    and when [kickoff] returns the call returns a string. *)
Theorem pipeline_raises_only_from_the_crew w topic brand audience tone kws n :
  (crewai_missing w = true ->
   exists v,
     outcome (blog_generate_using_crewai_content_marketing
                w topic brand audience tone kws n) = Ok v) /\
  (crewai_missing w = false ->
   forall ks,
     joined_keywords kws = Ok ks ->
     (forall e,
         crew_kickoff w (crew w (brief_of topic brand audience tone n ks)) = Raise e ->
         outcome (blog_generate_using_crewai_content_marketing
                    w topic brand audience tone kws n) = Raise e) /\
     (forall after,
         crew_kickoff w (crew w (brief_of topic brand audience tone n ks)) = Ok after ->
         exists s,
           outcome (blog_generate_using_crewai_content_marketing
                      w topic brand audience tone kws n) = Ok (VStr s))).
Proof.
  split.
  - intros Hc. rewrite fallback_path by assumption. cbn [outcome snd].
    rewrite bedrock_outcome.
    destruct (outcome (invoke_and_decode w topic)); eauto.
  - intros Hc ks Hks. rewrite staged_path, Hks by assumption. cbn [outcome snd].
    split.
    + intros e He. rewrite He. reflexivity.
    + intros after Ha. rewrite Ha. eauto.
Qed.

Lemma pipeline_raises_only_from_the_crew_witness :
  (exists v,
      outcome (blog_generate_using_crewai_content_marketing Sample.direct
                 (VStr "cloud cost optimization") VNone VNone VNone VNone (VInt 500))
      = Ok v) /\
  (exists s,
      outcome (blog_generate_using_crewai_content_marketing Sample.staged
                 (VStr "cloud cost optimization") VNone VNone VNone VNone (VInt 500))
      = Ok (VStr s)).
Proof.
  split.
  - destruct (pipeline_raises_only_from_the_crew Sample.direct
                (VStr "cloud cost optimization") VNone VNone VNone VNone (VInt 500))
      as (H & _).
    apply H. reflexivity.
  - destruct (pipeline_raises_only_from_the_crew Sample.staged
                (VStr "cloud cost optimization") VNone VNone VNone VNone (VInt 500))
      as (_ & H).
    destruct (H eq_refl "" eq_refl) as (_ & Hret).
    apply (Hret (mkOutcome "aggregate text "
                   (fun _ => Sample.task_with_output (VStr Sample.article)))).
    reflexivity.
Defined.

(** C4, as stated, fails: with CrewAI installed and the crew failing in
    mid-run, the request reaches the pipeline and the pipeline call raises
    the framework's exception to its caller. *)
Lemma crew_failure_escapes_the_pipeline :
  parsed_request Sample.broken_crew (Sample.gateway_event Sample.request)
    [("blog_topic", VStr "cloud cost optimization"); ("target_word_count", VInt 500)]
    (VStr "cloud cost optimization") /\
  outcome (pipeline_call Sample.broken_crew
             [("blog_topic", VStr "cloud cost optimization");
              ("target_word_count", VInt 500)]
             (VStr "cloud cost optimization"))
  = Raise (OtherError "RuntimeError").
Proof.
  split.
  - apply sample_request_parsed. reflexivity.
  - vm_compute. reflexivity.
Qed.

(** C5, as amended.  For a staged run whose [kickoff] returns: if the Edit
    task's output text is present, is a string and is non-blank, the return
    value is that text with leading and trailing whitespace stripped;
    otherwise it is [str] of the aggregate result, stripped likewise.  An
    exception raised by either attribute lookup during the extraction is
    swallowed and the stripped aggregate text is returned. *)
Theorem staged_result_extraction w topic brand audience tone kws n ks after :
  crewai_missing w = false ->
  joined_keywords kws = Ok ks ->
  crew_kickoff w (crew w (brief_of topic brand audience tone n ks)) = Ok after ->
  outcome (blog_generate_using_crewai_content_marketing w topic brand audience tone kws n)
  = Ok (VStr match edit_stage_text w after (brief_of topic brand audience tone n ks) with
             | Some s => if truthy (VStr (strip s)) then strip s
                         else strip (ko_result_str after)
             | None => strip (ko_result_str after)
             end) /\
  (forall e,
      ko_task_attr after (edit_task w (brief_of topic brand audience tone n ks)) "output"
      = Raise e ->
      outcome (blog_generate_using_crewai_content_marketing
                 w topic brand audience tone kws n)
      = Ok (VStr (strip (ko_result_str after)))) /\
  (forall attr e,
      ko_task_attr after (edit_task w (brief_of topic brand audience tone n ks)) "output"
      = Ok (OObj attr) ->
      attr "raw" = Raise e ->
      outcome (blog_generate_using_crewai_content_marketing
                 w topic brand audience tone kws n)
      = Ok (VStr (strip (ko_result_str after)))).
Proof.
  intros Hc Hks Ha. rewrite staged_path, Hks by assumption. cbn [outcome snd].
  rewrite Ha. unfold edit_stage_text. split; [reflexivity | split].
  - intros e He. rewrite He. reflexivity.
  - intros attr e Ho He. rewrite Ho, He. reflexivity.
Qed.

Lemma staged_result_extraction_witness :
  outcome (blog_generate_using_crewai_content_marketing Sample.staged
             (VStr "cloud cost optimization") VNone VNone VNone VNone (VInt 500))
  = Ok (VStr (strip Sample.article)).
Proof.
  apply (staged_result_extraction Sample.staged
           (VStr "cloud cost optimization") VNone VNone VNone VNone (VInt 500) ""
           (mkOutcome "aggregate text "
              (fun _ => Sample.task_with_output (VStr Sample.article)))).
  - reflexivity.
  - reflexivity.
  - reflexivity.
Defined.

(** C5, as stated, fails: the Edit stage's text is present, a string and
    non-blank, and the staged path returns something else, the text without
    its surrounding whitespace. *)
Lemma edit_text_is_returned_stripped :
  crewai_missing Sample.staged = false /\
  edit_stage_text Sample.staged
    (mkOutcome "aggregate text " (fun _ => Sample.task_with_output (VStr Sample.article)))
    (brief_of (VStr "cloud cost optimization") VNone VNone VNone (VInt 500) "")
  = Some Sample.article /\
  strip Sample.article <> "" /\
  outcome (blog_generate_using_crewai_content_marketing Sample.staged
             (VStr "cloud cost optimization") VNone VNone VNone VNone (VInt 500))
  <> Ok (VStr Sample.article).
Proof.
  split; [reflexivity | split; [reflexivity | split]].
  - vm_compute. discriminate.
  - vm_compute. discriminate.
Qed.

(** C6.  Whenever the staged function calls [kickoff], the crew it hands
    over runs sequentially over exactly four tasks, Research, Outline,
    Write and Edit in that order, given to the researcher, strategist,
    writer and editor; the Research task is given no context, Outline's
    context is Research, Write's is Research and Outline, Edit's is
    Research, Outline and Write: the context of each task is the list of
    the tasks before it and holds no later one. *)
Theorem stage_contexts_are_prior_stages w topic brand audience tone kws n c :
  In (EvKickoff c)
     (trace (blog_generate_using_crewai_content_marketing
               w topic brand audience tone kws n)) ->
  process c = sequential /\
  exists research outline write edit,
    tasks c = [research; outline; write; edit] /\
    map task_agent (tasks c) = [researcher; strategist; writer; editor] /\
    task_context research = None /\
    task_context outline = Some [research] /\
    task_context write = Some [research; outline] /\
    task_context edit = Some [research; outline; write] /\
    forall i t, nth_error (tasks c) i = Some t ->
                context_tasks t = firstn i (tasks c).
Proof.
  intros Hin.
  destruct (crewai_missing w) eqn:Hc.
  - exfalso. rewrite fallback_path in Hin by assumption.
    cbn [trace fst] in Hin. destruct Hin as [Hin | Hin]; [discriminate |].
    pose proof (bedrock_calls w topic) as H. rewrite forallb_forall in H.
    specialize (H _ Hin). discriminate H.
  - rewrite staged_path in Hin by assumption.
    destruct (joined_keywords kws) as [ks | e]; [| destruct Hin].
    cbn [trace fst] in Hin. destruct Hin as [Hin | []].
    injection Hin as <-.
    set (b := brief_of topic brand audience tone n ks).
    split; [reflexivity |].
    exists (research_task w b), (outline_task w b), (write_task w b), (edit_task w b).
    repeat (split; [reflexivity |]).
    intros i t Hi.
    destruct i as [| [| [| [| i]]]]; cbn in Hi;
      try (injection Hi as <-; reflexivity).
    destruct i; discriminate.
Qed.

Lemma stage_contexts_are_prior_stages_witness :
  process (crew Sample.staged
             (brief_of (VStr "cloud cost optimization") VNone VNone VNone (VInt 500) ""))
  = sequential.
Proof.
  apply (stage_contexts_are_prior_stages Sample.staged
           (VStr "cloud cost optimization") VNone VNone VNone VNone (VInt 500)).
  left. reflexivity.
Defined.

(** ** Properties of the script beyond the claims *)

(** *** Whitespace *)

Lemma rstrip_idempotent s : rstrip (rstrip s) = rstrip s.
Proof.
  induction s as [| c s IH]; [reflexivity |].
  cbn [rstrip]. destruct (rstrip s) as [| c1 r1] eqn:Hr.
  - destruct (is_space c) eqn:Hc; [reflexivity |].
    cbn [rstrip]. rewrite Hc. reflexivity.
  - cbn [rstrip]. cbn [rstrip] in IH.
    destruct (rstrip r1) as [| c2 r2] eqn:Hr1.
    + destruct (is_space c1); [discriminate IH | rewrite IH; reflexivity].
    + rewrite IH. reflexivity.
Qed.

Lemma lstrip_head s :
  lstrip s = EmptyString \/
  exists c r, lstrip s = String c r /\ is_space c = false.
Proof.
  induction s as [| c s IH]; [left; reflexivity |].
  cbn [lstrip]. destruct (is_space c) eqn:Hc; [exact IH |].
  right. exists c, s. split; [reflexivity | exact Hc].
Qed.

Lemma rstrip_head c s :
  is_space c = false -> exists r, rstrip (String c s) = String c r.
Proof.
  intros Hc. cbn [rstrip]. destruct (rstrip s) as [| c1 r1].
  - rewrite Hc. eauto.
  - eauto.
Qed.

Lemma strip_idempotent s : strip (strip s) = strip s.
Proof.
  unfold strip. destruct (lstrip_head s) as [-> | (c & r & -> & Hc)];
    [reflexivity |].
  destruct (rstrip_head c r Hc) as (r' & Hr). rewrite Hr.
  cbn [lstrip]. rewrite Hc, <- Hr. apply rstrip_idempotent.
Qed.

Lemma strip_head s c r : strip s = String c r -> is_space c = false.
Proof.
  unfold strip. destruct (lstrip_head s) as [-> | (c' & r' & -> & Hc)];
    [discriminate |].
  destruct (rstrip_head c' r' Hc) as (r'' & ->). intros H. injection H as <- _.
  exact Hc.
Qed.

(** X1.  Whenever the staged path returns (its kickoff returned), the value
    is a string that is already trimmed: stripping it again changes
    nothing, and it does not begin with a whitespace character. *)
Theorem staged_result_is_trimmed w topic brand audience tone kws n ks after :
  crewai_missing w = false ->
  joined_keywords kws = Ok ks ->
  crew_kickoff w (crew w (brief_of topic brand audience tone n ks)) = Ok after ->
  exists s,
    outcome (blog_generate_using_crewai_content_marketing
               w topic brand audience tone kws n) = Ok (VStr s) /\
    strip s = s /\
    (forall c r, s = String c r -> is_space c = false).
Proof.
  intros Hc Hks Ha. rewrite staged_path, Hks by assumption. cbn [outcome snd].
  rewrite Ha.
  destruct (edit_stage_text w after (brief_of topic brand audience tone n ks)) as [s |];
    [destruct (truthy (VStr (strip s))) |];
    eexists; (split; [reflexivity |]);
    (split; [apply strip_idempotent | intros c r; apply strip_head]).
Qed.

Lemma staged_result_is_trimmed_witness :
  exists s,
    outcome (blog_generate_using_crewai_content_marketing Sample.staged
               (VStr "cloud cost optimization") VNone VNone VNone VNone (VInt 500))
    = Ok (VStr s) /\
    strip s = s /\
    (forall c r, s = String c r -> is_space c = false).
Proof.
  apply (staged_result_is_trimmed Sample.staged
           (VStr "cloud cost optimization") VNone VNone VNone VNone (VInt 500) ""
           (mkOutcome "aggregate text "
              (fun _ => Sample.task_with_output (VStr Sample.article))));
    reflexivity.
Defined.

(** *** The handler as a whole *)

Lemma save_blog_details_s3_without_client w key bucket g e :
  boto3_client w "s3" = Raise e ->
  save_blog_details_s3 w key bucket g = ([EvClient "s3" None None], Raise e).
Proof. intros Hc. unfold save_blog_details_s3. rewrite Hc. reflexivity. Qed.

Lemma handler_parse_cases w event ctx :
  (exists e, lambda_handler w event ctx = ([], Raise e)) \/
  (exists d topic, parsed_request w event d topic).
Proof.
  destruct (py_getitem event "body") as [raw | e] eqn:Hbody.
  - destruct (py_json_loads w raw) as [parsed | e] eqn:Hloads.
    + destruct parsed;
        try (left; exists TypeError; unfold lambda_handler;
             rewrite Hbody, (bind_lift_ok raw), Hloads; reflexivity).
      destruct (dict_lookup "blog_topic" d) as [topic |] eqn:Htopic.
      * right. exists d, topic, raw. auto.
      * left. exists (KeyError "blog_topic"). unfold lambda_handler.
        rewrite Hbody, (bind_lift_ok raw), Hloads, (bind_lift_ok (VDict d)).
        unfold py_getitem at 1. rewrite Htopic. reflexivity.
    + left. exists e. unfold lambda_handler.
      rewrite Hbody, (bind_lift_ok raw), Hloads. reflexivity.
  - left. exists e. unfold lambda_handler. rewrite Hbody. reflexivity.
Qed.

Lemma persist_cases w g :
  (truthy g = false /\
   persist w g = ([EvPrint "No blog was generated"], Ok tt)) \/
  (truthy g = true /\ exists e,
      boto3_client w "s3" = Raise e /\
      persist w g = ([EvClient "s3" None None], Raise e)) \/
  (truthy g = true /\ boto3_client w "s3" = Ok tt /\ exists msg,
      persist w g = ([EvClient "s3" None None;
                      EvPutObject "aws_bedrock_course1" (object_key (datetime_now w)) g;
                      EvPrint msg], Ok tt)).
Proof.
  unfold persist. destruct (truthy g); [| left; auto].
  right. destruct (boto3_client w "s3") as [[] | e] eqn:Hc.
  - right. split; [reflexivity | split; [reflexivity |]].
    rewrite save_blog_details_s3_run by assumption. eexists. reflexivity.
  - left. split; [reflexivity |]. exists e. split; [reflexivity |].
    apply save_blog_details_s3_without_client. assumption.
Qed.

(** X2.  In every invocation, whatever the event and the world, the log
    splits into a first part without any S3 call and a second part without
    any generation call (Bedrock client, inference, kickoff): nothing is
    generated once persistence has begun.  The whole log holds at most one
    [put_object]. *)
Theorem writes_follow_generation w event ctx :
  exists before after,
    trace (lambda_handler w event ctx) = (before ++ after)%list /\
    existsb is_s3_call before = false /\
    existsb is_generation_call after = false /\
    (length (filter is_put_object (trace (lambda_handler w event ctx))) <= 1)%nat.
Proof.
  destruct (handler_parse_cases w event ctx) as [[e He] | (d & topic & Hp)].
  - exists [], []. rewrite He. cbn. auto.
  - rewrite (handler_run _ _ _ _ _ Hp). cbn [trace fst].
    exists (trace (pipeline_call w d topic)).
    eexists. split; [reflexivity |].
    split; [apply pipeline_makes_no_s3_call |].
    rewrite filter_app, pipeline_call_makes_no_write. cbn [app].
    destruct (outcome (pipeline_call w d topic)) as [g | e]; [| cbn; auto].
    destruct (persist_cases w g)
      as [(_ & ->) | [(_ & e & _ & ->) | (_ & _ & msg & ->)]]; cbn; auto.
Qed.

(** X3.  The handler returns a value exactly when the request was parsed,
    the pipeline call returned and, if its value was truthy, the S3 client
    could be created; and the value it returns is then always the one fixed
    envelope: no other status or body is ever produced. *)
Theorem handler_returns_only_completed w event ctx env :
  outcome (lambda_handler w event ctx) = Ok env ->
  env = completed /\
  exists d topic g,
    parsed_request w event d topic /\
    outcome (pipeline_call w d topic) = Ok g /\
    (truthy g = true -> boto3_client w "s3" = Ok tt).
Proof.
  intros Hret.
  destruct (handler_parse_cases w event ctx) as [[e He] | (d & topic & Hp)].
  - rewrite He in Hret. discriminate.
  - rewrite (handler_run _ _ _ _ _ Hp) in Hret. cbn [outcome snd] in Hret.
    destruct (outcome (pipeline_call w d topic)) as [g | e] eqn:Hg; [| discriminate].
    destruct (persist_cases w g)
      as [(Ht & Hrun) | [(_ & e & _ & Hrun) | (_ & Hc & msg & Hrun)]];
      rewrite Hrun in Hret; cbn in Hret; try discriminate;
      injection Hret as <-; (split; [reflexivity |]);
      exists d, topic, g; repeat split; auto.
    intros Ht'. rewrite Ht in Ht'. discriminate.
Qed.

Lemma handler_returns_only_completed_witness :
  completed = completed /\
  exists d topic g,
    parsed_request Sample.direct (Sample.gateway_event Sample.request) d topic /\
    outcome (pipeline_call Sample.direct d topic) = Ok g /\
    (truthy g = true -> boto3_client Sample.direct "s3" = Ok tt).
Proof.
  apply (handler_returns_only_completed Sample.direct
           (Sample.gateway_event Sample.request) VNone completed).
  vm_compute. reflexivity.
Defined.

(** X4.  An event with no ['body'] entry, or whose body is not text, ends
    the invocation with an exception before anything is logged: no model
    call and no write is attempted. *)
Theorem event_without_text_body_fails_first w event ctx :
  (forall s, py_getitem event "body" <> Ok (VStr s)) ->
  exists e, lambda_handler w event ctx = ([], Raise e).
Proof.
  intros Hno. unfold lambda_handler.
  destruct (py_getitem event "body") as [raw | e] eqn:Hbody.
  - rewrite (bind_lift_ok raw).
    destruct raw; try (exists TypeError; reflexivity).
    exfalso. apply (Hno s). reflexivity.
  - exists e. reflexivity.
Qed.

Lemma event_without_text_body_fails_first_witness :
  (exists e, lambda_handler Sample.direct (VDict []) VNone = ([], Raise e)) /\
  (exists e, lambda_handler Sample.direct
               (VDict [("body", Sample.request)]) VNone = ([], Raise e)).
Proof.
  split.
  - apply (event_without_text_body_fails_first Sample.direct (VDict []) VNone).
    intros s H. discriminate H.
  - apply (event_without_text_body_fails_first Sample.direct
             (VDict [("body", Sample.request)]) VNone).
    intros s H. discriminate H.
Defined.

(** X5.  When there is text to store and the S3 client cannot be created,
    the client's exception leaves [save_blog_details_s3] and the handler
    uncaught (the [try] of the adapter starts after the client is made), no
    [put_object] is attempted and no envelope is returned. *)
Theorem s3_client_failure_propagates w event ctx d topic g e :
  parsed_request w event d topic ->
  outcome (pipeline_call w d topic) = Ok g ->
  truthy g = true ->
  boto3_client w "s3" = Raise e ->
  lambda_handler w event ctx
  = ((trace (pipeline_call w d topic) ++ [EvClient "s3" None None])%list, Raise e) /\
  filter is_put_object (trace (lambda_handler w event ctx)) = [].
Proof.
  intros Hp Hg Ht Hc.
  assert (Hrun : lambda_handler w event ctx
                 = ((trace (pipeline_call w d topic) ++ [EvClient "s3" None None])%list,
                    Raise e)).
  { rewrite (handler_run _ _ _ _ _ Hp), Hg. unfold persist. rewrite Ht.
    rewrite (save_blog_details_s3_without_client _ _ _ _ e) by assumption.
    reflexivity. }
  split; [exact Hrun |].
  rewrite Hrun. cbn [trace fst].
  rewrite filter_app, pipeline_call_makes_no_write. reflexivity.
Qed.

Lemma s3_client_failure_propagates_witness :
  filter is_put_object
    (trace (lambda_handler Sample.no_s3 (Sample.gateway_event Sample.request) VNone))
  = [].
Proof.
  apply (s3_client_failure_propagates Sample.no_s3
           (Sample.gateway_event Sample.request) VNone
           [("blog_topic", VStr "cloud cost optimization");
            ("target_word_count", VInt 500)]
           (VStr "cloud cost optimization") (VStr "Cut idle spend first.")
           (OtherError "NoCredentialsError")).
  - apply sample_request_parsed. reflexivity.
  - vm_compute. reflexivity.
  - reflexivity.
  - reflexivity.
Defined.

(** *** The two generation paths *)

(** X6.  With the framework available the staged function never falls back
    to Direct Generation: its log holds no Bedrock client creation and no
    inference call, and at most one event, the kickoff.  In particular,
    when [kickoff] raises, the log is that one kickoff and the exception is
    the function's outcome. *)
Theorem staged_path_never_calls_bedrock w topic brand audience tone kws n :
  crewai_missing w = false ->
  existsb is_bedrock_call
    (trace (blog_generate_using_crewai_content_marketing
              w topic brand audience tone kws n)) = false /\
  (length (trace (blog_generate_using_crewai_content_marketing
                    w topic brand audience tone kws n)) <= 1)%nat /\
  (forall ks e,
      joined_keywords kws = Ok ks ->
      crew_kickoff w (crew w (brief_of topic brand audience tone n ks)) = Raise e ->
      blog_generate_using_crewai_content_marketing w topic brand audience tone kws n
      = ([EvKickoff (crew w (brief_of topic brand audience tone n ks))], Raise e)).
Proof.
  intros Hc. rewrite staged_path by assumption.
  destruct (joined_keywords kws) as [ks | e0].
  - cbn. repeat split; auto.
    intros ks' e Hks He. injection Hks as <-. rewrite He. reflexivity.
  - cbn. repeat split; auto. intros ks e Hks. discriminate.
Qed.

Lemma staged_path_never_calls_bedrock_witness :
  blog_generate_using_crewai_content_marketing Sample.broken_crew
    (VStr "cloud cost optimization") VNone VNone VNone VNone (VInt 500)
  = ([EvKickoff (crew Sample.broken_crew
                   (brief_of (VStr "cloud cost optimization") VNone VNone VNone
                      (VInt 500) ""))],
     Raise (OtherError "RuntimeError")).
Proof.
  destruct (staged_path_never_calls_bedrock Sample.broken_crew
              (VStr "cloud cost optimization") VNone VNone VNone VNone (VInt 500))
    as (_ & _ & H).
  - reflexivity.
  - apply (H "" (OtherError "RuntimeError")); reflexivity.
Defined.

Lemma all_str_non_string l :
  Exists (fun x => forall s, x <> VStr s) l -> all_str l = Raise TypeError.
Proof.
  induction l as [| x l IH]; intros H; [inversion H |].
  destruct x; try reflexivity.
  cbn [all_str]. rewrite IH; [reflexivity |].
  inversion H as [? ? Hx | ? ? Hl]; [| exact Hl].
  exfalso. apply (Hx s). reflexivity.
Qed.

(** X7.  With the framework available, a keyword list holding any item
    that is not a string makes the staged function raise [TypeError] from
    the join of line 75, before the crew is started: the log is empty. *)
Theorem non_string_keyword_raises_before_kickoff w topic brand audience tone l n :
  crewai_missing w = false ->
  Exists (fun x => forall s, x <> VStr s) l ->
  blog_generate_using_crewai_content_marketing w topic brand audience tone (VList l) n
  = ([], Raise TypeError).
Proof.
  intros Hc Hl. rewrite staged_path by assumption.
  unfold joined_keywords, py_join.
  destruct l as [| x l']; [inversion Hl |]. cbn [truthy].
  rewrite all_str_non_string by assumption. reflexivity.
Qed.

Lemma non_string_keyword_raises_before_kickoff_witness :
  blog_generate_using_crewai_content_marketing Sample.staged
    (VStr "cloud cost optimization") VNone VNone VNone
    (VList [VStr "finops"; VInt 7]) (VInt 500)
  = ([], Raise TypeError).
Proof.
  apply (non_string_keyword_raises_before_kickoff Sample.staged).
  - reflexivity.
  - apply Exists_cons_tl, Exists_cons_hd. intros s H. discriminate H.
Defined.

Lemma py_or_same_or_falsy a b default :
  same_or_falsy a b -> py_or a default = py_or b default.
Proof.
  intros [-> | [Ha Hb]]; [reflexivity |]. unfold py_or. rewrite Ha, Hb. reflexivity.
Qed.

Lemma joined_keywords_same_or_falsy a b :
  same_or_falsy a b -> joined_keywords a = joined_keywords b.
Proof.
  intros [-> | [Ha Hb]]; [reflexivity |].
  unfold joined_keywords. rewrite Ha, Hb. reflexivity.
Qed.

(** X8.  The pipeline cannot tell a falsy optional field from another falsy
    one: replacing brand, audience, tone or keyword list by a value that is
    equal or equally falsy (None, the empty string, zero, an empty list, ...)
    leaves the function's log and outcome unchanged; each falsy brand,
    audience and tone is replaced by its default and a falsy keyword list
    is never joined. *)
Theorem falsy_fields_take_defaults w topic brand brand' audience audience'
    tone tone' kws kws' n :
  same_or_falsy brand brand' ->
  same_or_falsy audience audience' ->
  same_or_falsy tone tone' ->
  same_or_falsy kws kws' ->
  blog_generate_using_crewai_content_marketing w topic brand audience tone kws n
  = blog_generate_using_crewai_content_marketing w topic brand' audience' tone' kws' n.
Proof.
  intros Hb Ha Ht Hk.
  destruct (crewai_missing w) eqn:Hc.
  - rewrite !fallback_path by assumption. reflexivity.
  - rewrite !staged_path by assumption.
    rewrite (joined_keywords_same_or_falsy _ _ Hk).
    unfold brief_of.
    rewrite (py_or_same_or_falsy _ _ _ Hb), (py_or_same_or_falsy _ _ _ Ha),
      (py_or_same_or_falsy _ _ _ Ht).
    reflexivity.
Qed.

Lemma falsy_fields_take_defaults_witness :
  blog_generate_using_crewai_content_marketing Sample.staged
    (VStr "cloud cost optimization") (VStr "") (VInt 0) (VList []) (VDict [])
    (VInt 500)
  = blog_generate_using_crewai_content_marketing Sample.staged
      (VStr "cloud cost optimization") VNone VNone VNone VNone (VInt 500).
Proof.
  apply (falsy_fields_take_defaults Sample.staged); right; split; reflexivity.
Defined.

(** X9.  Apart from what it prints, Direct Generation makes one Bedrock
    client (region us-east-1, read timeout 300, 3 attempts) and, only if
    that client was created, one [invoke_model] call for model
    meta.llama2-13b-chat-v1 whose body is the JSON text of the request dict
    for the topic; it makes no other call, and none after a failure. *)
Theorem direct_path_call_protocol w topic :
  filter (fun ev => negb (is_print ev)) (trace (blog_generate_using_bedrock w topic))
  = EvClient "bedrock-runtime" (Some "us-east-1") (Some (mkConfig 300 3))
      :: match boto3_client w "bedrock-runtime" with
         | Ok _ => [EvInvokeModel (json_dumps w (bedrock_body w topic))
                      "meta.llama2-13b-chat-v1"]
         | Raise _ => []
         end.
Proof.
  unfold blog_generate_using_bedrock. rewrite trace_try.
  unfold invoke_and_decode.
  destruct (boto3_client w "bedrock-runtime") as [c | e]; [| reflexivity].
  rewrite bind_call_ok.
  destruct (bedrock_invoke_model w _ _) as [r | e]; [| reflexivity].
  rewrite bind_call_ok.
  destruct (resp_body r) as [[s | e] |]; try reflexivity.
  rewrite (bind_lift_ok s).
  destruct (json_loads w s) as [data | e]; [| reflexivity].
  rewrite (bind_lift_ok data). unfold print. rewrite bind_call_ok.
  destruct (py_getitem data "generation"); reflexivity.
Qed.

(** *** Whole invocations *)

Lemma staged_pipeline_call w d topic ks after :
  crewai_missing w = false ->
  joined_keywords (dict_get d "seo_keywords" VNone) = Ok ks ->
  crew_kickoff w (crew w (request_brief d topic ks)) = Ok after ->
  pipeline_call w d topic
  = ([EvKickoff (crew w (request_brief d topic ks))],
     Ok (VStr match edit_stage_text w after (request_brief d topic ks) with
              | Some s => if truthy (VStr (strip s)) then strip s
                          else strip (ko_result_str after)
              | None => strip (ko_result_str after)
              end)).
Proof.
  intros Hc Hks Ha. unfold pipeline_call. rewrite staged_path, Hks by assumption.
  cbv zeta. fold (request_brief d topic ks). rewrite Ha. reflexivity.
Qed.

(** X10.  A staged invocation whose Edit text is absent or blank and whose
    aggregate result is blank produces the empty string, so the handler
    logs the kickoff and "No blog was generated", creates no S3 client,
    writes nothing, and still returns the fixed envelope. *)
Theorem blank_staged_run_stores_nothing w event ctx d topic ks after :
  parsed_request w event d topic ->
  crewai_missing w = false ->
  joined_keywords (dict_get d "seo_keywords" VNone) = Ok ks ->
  crew_kickoff w (crew w (request_brief d topic ks)) = Ok after ->
  strip (ko_result_str after) = "" ->
  (forall s, edit_stage_text w after (request_brief d topic ks) = Some s ->
             strip s = "") ->
  outcome (pipeline_call w d topic) = Ok (VStr "") /\
  lambda_handler w event ctx
  = ([EvKickoff (crew w (request_brief d topic ks));
      EvPrint "No blog was generated"],
     Ok completed).
Proof.
  intros Hp Hc Hks Ha Hagg Hedit.
  assert (Hrun : pipeline_call w d topic
                 = ([EvKickoff (crew w (request_brief d topic ks))], Ok (VStr ""))).
  { rewrite (staged_pipeline_call w d topic ks after) by assumption.
    destruct (edit_stage_text w after (request_brief d topic ks)) as [s |].
    - rewrite (Hedit s eq_refl). cbn [truthy]. rewrite Hagg. reflexivity.
    - rewrite Hagg. reflexivity. }
  rewrite (handler_run _ _ _ _ _ Hp), Hrun. split; reflexivity.
Qed.

Lemma blank_staged_run_stores_nothing_witness :
  outcome (lambda_handler Cases.dry (Sample.gateway_event Sample.request) VNone)
  = Ok completed.
Proof.
  destruct (blank_staged_run_stores_nothing Cases.dry
              (Sample.gateway_event Sample.request) VNone
              [("blog_topic", VStr "cloud cost optimization");
               ("target_word_count", VInt 500)]
              (VStr "cloud cost optimization") ""
              (mkOutcome ("  " ++ nl)
                 (fun _ => Sample.task_with_output (VStr " "))))
    as (_ & H).
  - apply sample_request_parsed. reflexivity.
  - reflexivity.
  - reflexivity.
  - reflexivity.
  - reflexivity.
  - intros s Hs. vm_compute in Hs. injection Hs as <-. reflexivity.
  - rewrite H. reflexivity.
Defined.

(** X11.  A staged invocation whose Edit text is present and non-blank, in
    a world where the S3 client is created and the write succeeds, logs
    exactly four events: the kickoff of the crew built from the request,
    the S3 client, one [put_object] of the trimmed Edit text under the
    timestamped key in the fixed bucket, and "Content saved to s3"; it
    returns the fixed envelope. *)
Theorem staged_invocation_end_to_end w event ctx d topic ks after s :
  parsed_request w event d topic ->
  crewai_missing w = false ->
  joined_keywords (dict_get d "seo_keywords" VNone) = Ok ks ->
  crew_kickoff w (crew w (request_brief d topic ks)) = Ok after ->
  edit_stage_text w after (request_brief d topic ks) = Some s ->
  strip s <> "" ->
  boto3_client w "s3" = Ok tt ->
  s3_put_object w "aws_bedrock_course1" (object_key (datetime_now w)) (VStr (strip s))
  = Ok tt ->
  lambda_handler w event ctx
  = ([EvKickoff (crew w (request_brief d topic ks));
      EvClient "s3" None None;
      EvPutObject "aws_bedrock_course1" (object_key (datetime_now w)) (VStr (strip s));
      EvPrint "Content saved to s3"],
     Ok completed).
Proof.
  intros Hp Hc Hks Ha Hs Hne Hcl Hput.
  assert (Ht : truthy (VStr (strip s)) = true).
  { cbn. destruct (strip s); [contradiction Hne; reflexivity | reflexivity]. }
  rewrite (handler_run _ _ _ _ _ Hp).
  rewrite (staged_pipeline_call w d topic ks after), Hs, Ht by assumption.
  cbn [trace outcome fst snd]. unfold persist. rewrite Ht.
  rewrite save_blog_details_s3_run by assumption.
  fold (object_key (datetime_now w)). rewrite Hput. reflexivity.
Qed.

Lemma staged_invocation_end_to_end_witness :
  outcome (lambda_handler Sample.staged (Sample.gateway_event Sample.request) VNone)
  = Ok completed.
Proof.
  rewrite (staged_invocation_end_to_end Sample.staged
             (Sample.gateway_event Sample.request) VNone
             [("blog_topic", VStr "cloud cost optimization");
              ("target_word_count", VInt 500)]
             (VStr "cloud cost optimization") ""
             (mkOutcome "aggregate text "
                (fun _ => Sample.task_with_output (VStr Sample.article)))
             Sample.article).
  - reflexivity.
  - apply sample_request_parsed. reflexivity.
  - reflexivity.
  - reflexivity.
  - reflexivity.
  - reflexivity.
  - vm_compute. discriminate.
  - reflexivity.
  - reflexivity.
Defined.

(** X12.  An invocation without the framework, in a world where the model
    answers with JSON holding a truthy ['generation'] and the store accepts
    the write, logs exactly seven events in this order: the fallback
    notice, the Bedrock client, the inference call, the printed response,
    the S3 client, one [put_object] of the generation value under the
    timestamped key, and "Content saved to s3"; it returns the fixed
    envelope. *)
Theorem direct_invocation_end_to_end w event ctx d topic r s data g :
  parsed_request w event d topic ->
  crewai_missing w = true ->
  boto3_client w "bedrock-runtime" = Ok tt ->
  bedrock_invoke_model w (json_dumps w (bedrock_body w topic)) "meta.llama2-13b-chat-v1"
  = Ok r ->
  resp_body r = Some (Ok s) ->
  json_loads w s = Ok data ->
  py_getitem data "generation" = Ok g ->
  truthy g = true ->
  boto3_client w "s3" = Ok tt ->
  s3_put_object w "aws_bedrock_course1" (object_key (datetime_now w)) g = Ok tt ->
  lambda_handler w event ctx
  = ([EvPrint "CrewAI not available; falling back to direct Bedrock call.";
      EvClient "bedrock-runtime" (Some "us-east-1") (Some (mkConfig 300 3));
      EvInvokeModel (json_dumps w (bedrock_body w topic)) "meta.llama2-13b-chat-v1";
      EvPrint (fmt w data);
      EvClient "s3" None None;
      EvPutObject "aws_bedrock_course1" (object_key (datetime_now w)) g;
      EvPrint "Content saved to s3"],
     Ok completed).
Proof.
  intros Hp Hc Hb Hr Hs Hd Hg Ht Hcl Hput.
  assert (Hdirect : blog_generate_using_bedrock w topic
                    = ([EvClient "bedrock-runtime" (Some "us-east-1")
                          (Some (mkConfig 300 3));
                        EvInvokeModel (json_dumps w (bedrock_body w topic))
                          "meta.llama2-13b-chat-v1";
                        EvPrint (fmt w data)],
                       Ok g)).
  { unfold blog_generate_using_bedrock, invoke_and_decode.
    rewrite Hb, bind_call_ok, Hr, bind_call_ok, Hs, (bind_lift_ok s), Hd,
      (bind_lift_ok data).
    unfold print. rewrite bind_call_ok, Hg. reflexivity. }
  rewrite (handler_run _ _ _ _ _ Hp). unfold pipeline_call.
  rewrite fallback_path, Hdirect by assumption.
  cbn [trace outcome fst snd]. unfold persist. rewrite Ht.
  rewrite save_blog_details_s3_run by assumption.
  fold (object_key (datetime_now w)). rewrite Hput. reflexivity.
Qed.

Lemma direct_invocation_end_to_end_witness :
  outcome (lambda_handler Sample.direct (Sample.gateway_event Sample.request) VNone)
  = Ok completed.
Proof.
  rewrite (direct_invocation_end_to_end Sample.direct
             (Sample.gateway_event Sample.request) VNone
             [("blog_topic", VStr "cloud cost optimization");
              ("target_word_count", VInt 500)]
             (VStr "cloud cost optimization")
             (mkResponse (Some (Ok (Sample.text Sample.reply))))
             (Sample.text Sample.reply) Sample.reply
             (VStr "Cut idle spend first.")).
  - reflexivity.
  - apply sample_request_parsed. reflexivity.
  - reflexivity.
  - reflexivity.
  - reflexivity.
  - reflexivity.
  - vm_compute. reflexivity.
  - reflexivity.
  - reflexivity.
  - reflexivity.
  - reflexivity.
Defined.

(** X13.  Whenever an invocation starts a crew, it is the crew built from
    the request: the topic of the body, brand, audience and tone with
    their defaults for absent or falsy fields, the joined keywords, and the
    word count of the body, which is 700 exactly when the body has no
    ['target_word_count'] entry; a present entry, even null, is used as it
    is. *)
Theorem kickoff_crew_is_built_from_request w event ctx d topic c :
  parsed_request w event d topic ->
  In (EvKickoff c) (trace (lambda_handler w event ctx)) ->
  exists ks,
    joined_keywords (dict_get d "seo_keywords" VNone) = Ok ks /\
    c = crew w (request_brief d topic ks) /\
    blogtopic (request_brief d topic ks) = topic /\
    target_word_count (request_brief d topic ks)
    = match dict_lookup "target_word_count" d with
      | Some n => n
      | None => VInt 700
      end.
Proof.
  intros Hp Hin. rewrite (handler_run _ _ _ _ _ Hp) in Hin. cbn [trace fst] in Hin.
  apply in_app_or in Hin as [Hin | Hin].
  - unfold pipeline_call in Hin.
    destruct (crewai_missing w) eqn:Hc.
    + exfalso. rewrite fallback_path in Hin by assumption.
      cbn [trace fst] in Hin. destruct Hin as [Hin | Hin]; [discriminate |].
      pose proof (bedrock_calls w topic) as H. rewrite forallb_forall in H.
      specialize (H _ Hin). discriminate H.
    + rewrite staged_path in Hin by assumption.
      destruct (joined_keywords (dict_get d "seo_keywords" VNone)) as [ks | e];
        [| destruct Hin].
      cbn [trace fst] in Hin. destruct Hin as [Hin | []].
      injection Hin as <-. exists ks. repeat split.
  - exfalso.
    destruct (outcome (pipeline_call w d topic)) as [g | e]; [| destruct Hin].
    destruct (persist_cases w g)
      as [(_ & Hrun) | [(_ & e & _ & Hrun) | (_ & _ & msg & Hrun)]];
      rewrite Hrun in Hin; cbn in Hin;
      repeat (destruct Hin as [Hin | Hin]; [discriminate Hin |]); destruct Hin.
Qed.

Lemma kickoff_crew_is_built_from_request_witness :
  exists ks,
    joined_keywords (dict_get [("blog_topic", VStr "cloud cost optimization");
                               ("target_word_count", VInt 500)]
                       "seo_keywords" VNone) = Ok ks /\
    crew Sample.staged
      (request_brief [("blog_topic", VStr "cloud cost optimization");
                      ("target_word_count", VInt 500)]
         (VStr "cloud cost optimization") "")
    = crew Sample.staged
        (request_brief [("blog_topic", VStr "cloud cost optimization");
                        ("target_word_count", VInt 500)]
           (VStr "cloud cost optimization") ks).
Proof.
  destruct (kickoff_crew_is_built_from_request Sample.staged
              (Sample.gateway_event Sample.request) VNone
              [("blog_topic", VStr "cloud cost optimization");
               ("target_word_count", VInt 500)]
              (VStr "cloud cost optimization")
              (crew Sample.staged
                 (request_brief [("blog_topic", VStr "cloud cost optimization");
                                 ("target_word_count", VInt 500)]
                    (VStr "cloud cost optimization") "")))
    as (ks & Hks & Hc & _).
  - apply sample_request_parsed. reflexivity.
  - rewrite (handler_run _ _ _ _ _
               (sample_request_parsed Sample.staged eq_refl)).
    left. reflexivity.
  - exists ks. split; assumption.
Defined.

(** *** Object keys *)

Lemma digit_char_inj a b :
  ascii_of_N (48 + Z.to_N (a mod 10)) = ascii_of_N (48 + Z.to_N (b mod 10)) ->
  (a mod 10 = b mod 10)%Z.
Proof.
  intros H. apply (f_equal N_of_ascii) in H.
  pose proof (Z.mod_pos_bound a 10 eq_refl).
  pose proof (Z.mod_pos_bound b 10 eq_refl).
  rewrite !N_ascii_embedding in H by lia. lia.
Qed.

(** X14.  Two clock readings with four-digit years get the same object key
    only if they are the same reading: invocations in different seconds
    never write to the same key (and those within one second always do). *)
Theorem distinct_seconds_distinct_keys t1 t2 :
  valid_datetime t1 ->
  valid_datetime t2 ->
  object_key t1 = object_key t2 ->
  t1 = t2.
Proof.
  intros (Hy1 & Hm1 & Hd1 & Hh1 & Hmi1 & Hs1) (Hy2 & Hm2 & Hd2 & Hh2 & Hmi2 & Hs2) Hk.
  unfold object_key in Hk. rewrite !strftime_stamp in Hk.
  rewrite !z_str_four_digits in Hk by assumption.
  destruct t1 as [y1 m1 d1 h1 mi1 s1], t2 as [y2 m2 d2 h2 mi2 s2].
  cbn [year month day hour minute second] in *.
  unfold pad4, pad2, digit in Hk. cbn [append] in Hk.
  injection Hk as Hy1000 Hy100 Hy10 Hy0 Hm10 Hm0 Hd10 Hd0 Hh10 Hh0 Hmi10 Hmi0 Hs10 Hs0.
  apply digit_char_inj in Hs0, Hs10, Hmi0, Hmi10, Hh0, Hh10, Hd0, Hd10, Hm0, Hm10,
    Hy0, Hy10, Hy100, Hy1000.
  assert (y1 = y2) by (clear - Hy1 Hy2 Hy0 Hy10 Hy100 Hy1000; Z.div_mod_to_equations; lia).
  assert (m1 = m2) by (clear - Hm1 Hm2 Hm0 Hm10; Z.div_mod_to_equations; lia).
  assert (d1 = d2) by (clear - Hd1 Hd2 Hd0 Hd10; Z.div_mod_to_equations; lia).
  assert (h1 = h2) by (clear - Hh1 Hh2 Hh0 Hh10; Z.div_mod_to_equations; lia).
  assert (mi1 = mi2) by (clear - Hmi1 Hmi2 Hmi0 Hmi10; Z.div_mod_to_equations; lia).
  assert (s1 = s2) by (clear - Hs1 Hs2 Hs0 Hs10; Z.div_mod_to_equations; lia).
  subst. reflexivity.
Qed.

Lemma distinct_seconds_distinct_keys_witness :
  object_key Sample.clock <> object_key Cases.later.
Proof.
  intros H.
  assert (Heq : Sample.clock = Cases.later).
  { apply (distinct_seconds_distinct_keys Sample.clock Cases.later).
    - unfold valid_datetime. cbn. lia.
    - unfold valid_datetime. cbn. lia.
    - exact H. }
  discriminate Heq.
Defined.

(** *** What reaches the store, and what failures look like from outside *)

(** X15.  Every [put_object] an invocation makes, in any world and for any
    event, goes to the fixed bucket under the key of the current clock
    reading, and its Body is the truthy value the pipeline returned for the
    parsed request: nothing empty and nothing else is ever written. *)
Theorem every_write_is_the_generated_text w event ctx bucket key stored :
  In (EvPutObject bucket key stored) (trace (lambda_handler w event ctx)) ->
  bucket = "aws_bedrock_course1" /\
  key = object_key (datetime_now w) /\
  truthy stored = true /\
  exists d topic,
    parsed_request w event d topic /\
    outcome (pipeline_call w d topic) = Ok stored.
Proof.
  intros Hin.
  destruct (handler_parse_cases w event ctx) as [[e He] | (d & topic & Hp)].
  - rewrite He in Hin. destruct Hin.
  - rewrite (handler_run _ _ _ _ _ Hp) in Hin. cbn [trace fst] in Hin.
    apply in_app_or in Hin as [Hin | Hin].
    + exfalso.
      assert (Hf : In (EvPutObject bucket key stored)
                      (filter is_put_object (trace (pipeline_call w d topic))))
        by (apply filter_In; split; [exact Hin | reflexivity]).
      rewrite pipeline_call_makes_no_write in Hf. destruct Hf.
    + destruct (outcome (pipeline_call w d topic)) as [g | e] eqn:Hg; [| destruct Hin].
      destruct (persist_cases w g)
        as [(_ & Hrun) | [(_ & e & _ & Hrun) | (Ht & _ & msg & Hrun)]];
        rewrite Hrun in Hin; cbn [trace fst] in Hin.
      * destruct Hin as [Hin | []]. discriminate Hin.
      * destruct Hin as [Hin | []]. discriminate Hin.
      * destruct Hin as [Hin | [Hin | [Hin | []]]]; try discriminate Hin.
        injection Hin as <- <- <-.
        split; [reflexivity | split; [reflexivity | split; [exact Ht |]]].
        exists d, topic. auto.
Qed.

Lemma every_write_is_the_generated_text_witness :
  truthy (VStr "Cut idle spend first.") = true.
Proof.
  apply (every_write_is_the_generated_text Sample.direct
           (Sample.gateway_event Sample.request) VNone
           "aws_bedrock_course1" "blog-output/20261103-090507.txt"
           (VStr "Cut idle spend first.")).
  vm_compute. do 5 right. left. reflexivity.
Defined.

(** X16.  With the framework available, a [kickoff] that raises ends the
    whole invocation with that exception: the log is the one kickoff, no
    fallback generation is tried, nothing is stored and no envelope is
    returned. *)
Theorem crew_failure_aborts_invocation w event ctx d topic ks e :
  parsed_request w event d topic ->
  crewai_missing w = false ->
  joined_keywords (dict_get d "seo_keywords" VNone) = Ok ks ->
  crew_kickoff w (crew w (request_brief d topic ks)) = Raise e ->
  lambda_handler w event ctx
  = ([EvKickoff (crew w (request_brief d topic ks))], Raise e).
Proof.
  intros Hp Hc Hks He.
  rewrite (handler_run _ _ _ _ _ Hp). unfold pipeline_call.
  rewrite staged_path, Hks by assumption. cbv zeta.
  fold (request_brief d topic ks). rewrite He. reflexivity.
Qed.

Lemma crew_failure_aborts_invocation_witness :
  outcome (lambda_handler Sample.broken_crew (Sample.gateway_event Sample.request) VNone)
  = Raise (OtherError "RuntimeError").
Proof.
  rewrite (crew_failure_aborts_invocation Sample.broken_crew
             (Sample.gateway_event Sample.request) VNone
             [("blog_topic", VStr "cloud cost optimization");
              ("target_word_count", VInt 500)]
             (VStr "cloud cost optimization") "" (OtherError "RuntimeError")).
  - reflexivity.
  - apply sample_request_parsed. reflexivity.
  - reflexivity.
  - reflexivity.
  - reflexivity.
Defined.

Lemma direct_events_are_not_s3_calls l :
  forallb (fun ev => negb (is_s3_call ev) && negb (is_kickoff ev)) l = true ->
  existsb is_s3_call l = false.
Proof.
  induction l as [| ev l IH]; [reflexivity |].
  cbn. intros H. apply andb_prop in H as [H1 H2].
  apply andb_prop in H1 as [H1 _]. rewrite (IH H2).
  destruct (is_s3_call ev); [discriminate | reflexivity].
Qed.

(** X17.  Without the framework, any exception in the inference call or in
    the decoding of its response is invisible in the result: the handler
    logs the error and "No blog was generated", makes no S3 call and
    returns the same fixed envelope as after a successful run. *)
Theorem model_failure_is_reported_as_success w event ctx d topic e :
  parsed_request w event d topic ->
  crewai_missing w = true ->
  outcome (invoke_and_decode w topic) = Raise e ->
  lambda_handler w event ctx
  = ((EvPrint "CrewAI not available; falling back to direct Bedrock call."
        :: trace (invoke_and_decode w topic)
        ++ [EvPrint ("Error generating the blog:" ++ exn_str w e);
            EvPrint "No blog was generated"])%list,
     Ok completed) /\
  existsb is_s3_call (trace (lambda_handler w event ctx)) = false.
Proof.
  intros Hp Hc He.
  assert (Hdirect : blog_generate_using_bedrock w topic
                    = ((trace (invoke_and_decode w topic)
                        ++ [EvPrint ("Error generating the blog:" ++ exn_str w e)])%list,
                       Ok (VStr ""))).
  { rewrite (M_eta (blog_generate_using_bedrock w topic)).
    unfold blog_generate_using_bedrock. rewrite trace_try, outcome_try, He.
    reflexivity. }
  assert (Hrun : lambda_handler w event ctx
                 = ((EvPrint "CrewAI not available; falling back to direct Bedrock call."
                       :: trace (invoke_and_decode w topic)
                       ++ [EvPrint ("Error generating the blog:" ++ exn_str w e);
                           EvPrint "No blog was generated"])%list,
                    Ok completed)).
  { rewrite (handler_run _ _ _ _ _ Hp). unfold pipeline_call.
    rewrite fallback_path, Hdirect by assumption.
    cbn [trace outcome fst snd persist truthy print call app].
    rewrite <- app_assoc. reflexivity. }
  split; [exact Hrun |].
  rewrite Hrun. cbn [trace fst existsb is_s3_call orb].
  rewrite existsb_app. cbn [existsb is_s3_call orb].
  rewrite orb_false_r.
  apply direct_events_are_not_s3_calls, invoke_and_decode_calls.
Qed.

Lemma model_failure_is_reported_as_success_witness :
  existsb is_s3_call
    (trace (lambda_handler Sample.silent_model (Sample.gateway_event Sample.request) VNone))
  = false.
Proof.
  apply (model_failure_is_reported_as_success Sample.silent_model
           (Sample.gateway_event Sample.request) VNone
           [("blog_topic", VStr "cloud cost optimization");
            ("target_word_count", VInt 500)]
           (VStr "cloud cost optimization") (OtherError "ReadTimeoutError")).
  - apply sample_request_parsed. reflexivity.
  - reflexivity.
  - vm_compute. reflexivity.
Defined.
